(** * laser.py: the debug overlay of the gcode extension

    A shallow embedding of [src/laser/laser.py] (class [GcodeExtension]):
    the document tree the extension edits, [clear_debug],
    [draw_debug_traces], [draw_unit_reference] and the part of [effect]
    that builds the transformation and edits the document.

    Numbers are exact rationals ([Q]): the code only negates, halves, adds
    small constants and compares with zero.  A Python exception is a value
    of [PyError] carried by the [Raise] constructor of [res]. *)

From Stdlib Require Import List String Ascii Bool Arith ZArith Lia QArith.
From Stdlib Require Import DecimalString DecimalNat Finite.
Import ListNotations.
Local Open Scope string_scope.
Local Open Scope list_scope.

(** ** Exceptions and the error monad *)

Inductive PyError : Type :=
| KeyError (key : string)        (* a dict has no such key *)
| ValueError (what : string)     (* float() of a bad literal, remove() of a non-child *)
| AttributeError                 (* a method called on None *)
| IndexError                     (* a list index out of range *)
| ExternalError (what : string). (* raised inside svg_to_gcode *)

Inductive res (A : Type) : Type :=
| Ok (a : A)
| Raise (e : PyError).
Arguments Ok {A} a.
Arguments Raise {A} e.

Definition bind {A B : Type} (m : res A) (k : A -> res B) : res B :=
  match m with
  | Ok a => k a
  | Raise e => Raise e
  end.

Notation "x <- m ;; k" := (bind m (fun x => k))
  (at level 61, m at next level, right associativity).

Definition raises {A : Type} (m : res A) : Prop := exists e, m = Raise e.

(** ** The document tree (lxml elements) *)

#[warnings="-register-all"]
Inductive Element : Type :=
  mkElement (tag : string) (attrib : list (string * string))
            (text : option string) (children : list Element).

Definition tag (e : Element) : string :=
  match e with mkElement t _ _ _ => t end.
Definition attrib (e : Element) : list (string * string) :=
  match e with mkElement _ a _ _ => a end.
Definition text (e : Element) : option string :=
  match e with mkElement _ _ x _ => x end.
Definition children (e : Element) : list Element :=
  match e with mkElement _ _ _ c => c end.

Definition svg_name_space : string := "http://www.w3.org/2000/svg".
Definition inkscape_name_space : string :=
  "http://www.inkscape.org/namespaces/inkscape".

(** ["{%s}name" % ns] *)
Definition qname (ns name : string) : string := "{" ++ ns ++ "}" ++ name.

(** [etree.Element(tag)] *)
Definition new_element (t : string) : Element := mkElement t [] None [].

(** [e.get(key)] *)
Fixpoint lookup (key : string) (l : list (string * string)) : option string :=
  match l with
  | [] => None
  | (k, v) :: r => if String.eqb k key then Some v else lookup key r
  end.

Definition get (e : Element) (key : string) : option string :=
  lookup key (attrib e).

(** [e.set(key, value)]: an existing key keeps its place. *)
Fixpoint update (key value : string) (l : list (string * string))
  : list (string * string) :=
  match l with
  | [] => [(key, value)]
  | (k, v) :: r =>
      if String.eqb k key then (k, value) :: r else (k, v) :: update key value r
  end.

Definition set (key value : string) (e : Element) : Element :=
  mkElement (tag e) (update key value (attrib e)) (text e) (children e).

(** [e.text = s] *)
Definition set_text (s : string) (e : Element) : Element :=
  mkElement (tag e) (attrib e) (Some s) (children e).

(** [e.append(c)] *)
Definition append (c : Element) (e : Element) : Element :=
  mkElement (tag e) (attrib e) (text e) (children e ++ [c]).

(** Structural comparison of two elements; [remove] uses it to locate the
    node it was handed. *)
Definition option_eqb (a b : option string) : bool :=
  match a, b with
  | None, None => true
  | Some x, Some y => String.eqb x y
  | _, _ => false
  end.

Fixpoint attrib_eqb (a b : list (string * string)) : bool :=
  match a, b with
  | [], [] => true
  | (k1, v1) :: r1, (k2, v2) :: r2 =>
      String.eqb k1 k2 && String.eqb v1 v2 && attrib_eqb r1 r2
  | _, _ => false
  end.

Fixpoint Element_eqb (a b : Element) {struct a} : bool :=
  match a, b with
  | mkElement t1 a1 x1 c1, mkElement t2 a2 x2 c2 =>
      String.eqb t1 t2 && attrib_eqb a1 a2 && option_eqb x1 x2 &&
      (fix all2 (l1 l2 : list Element) {struct l1} : bool :=
         match l1, l2 with
         | [], [] => true
         | e1 :: r1, e2 :: r2 => Element_eqb e1 e2 && all2 r1 r2
         | _, _ => false
         end) c1 c2
  end.

(** [root.find("{ns}g[@id='ident']")]: the first child of [root] whose tag
    is the svg [g] and whose [id] attribute is [ident]; [None] when there
    is none.  Only the children of [root] are looked at. *)
Definition is_group_with_id (ident : string) (e : Element) : bool :=
  String.eqb (tag e) (qname svg_name_space "g") &&
  match get e "id" with
  | Some v => String.eqb v ident
  | None => false
  end.

Definition find (root : Element) (ident : string) : option Element :=
  List.find (is_group_with_id ident) (children root).

(** [root.remove(e)] takes the node [e] out of the children of [root] and
    raises ValueError when [e] is not a child. *)
Fixpoint remove_child (e : Element) (l : list Element) : option (list Element) :=
  match l with
  | [] => None
  | c :: r =>
      if Element_eqb c e then Some r
      else option_map (cons c) (remove_child e r)
  end.

Definition remove (e : Element) (root : Element) : res Element :=
  match remove_child e (children root) with
  | Some l => Ok (mkElement (tag root) (attrib root) (text root) l)
  | None => Raise (ValueError "Element is not a child of this node.")
  end.

(** ** clear_debug *)

Definition clear_debug (root : Element) : res Element :=
  let debug_traces := find root "debug_traces" in
  let debug_references := find root "debug_references" in
  root <- match debug_traces with
          | Some e => remove e root
          | None => Ok root
          end ;;
  match debug_references with
  | Some e => remove e root
  | None => Ok root
  end.

(** ** Numbers *)

Local Open Scope Q_scope.

(** [x > 0] and [x <= 0] on numbers. *)
Definition gt0 (x : Q) : bool := negb (Qle_bool x 0).
Definition le0 (x : Q) : bool := Qle_bool x 0.

(** A Python bool used as a number: [True] is 1 and [False] is 0. *)
Definition bool_num (b : bool) : Q := if b then 1 else 0.

(** ** Transformation *)

(** Modelled from the spec: the class [Transformation] of svg_to_gcode is
    not part of this repository's source.  The spec's data model has it as
    an ordered sequence of operations, each a translation or a scale (a
    uniform scale being [Scale s s]), that [add_translation] and
    [add_scale] extend at the end and that is applied to a point
    left to right, oldest operation first. *)
Inductive AffineOp : Type :=
| Translate (dx dy : Q)
| Scale (sx sy : Q).

(** Modelled from the spec: [Transformation] (missing from the source) is
    the ordered sequence of the operations added so far. *)
Definition Transformation : Type := list AffineOp.

(** Modelled from the spec: [Transformation()] (missing from the source)
    starts with no operation. *)
Definition new_Transformation : Transformation := [].

(** Modelled from the spec: [add_translation] (missing from the source)
    puts a translation at the end of the sequence. *)
Definition add_translation (x y : Q) (t : Transformation) : Transformation :=
  t ++ [Translate x y].

(** Modelled from the spec: [add_scale] (missing from the source) puts a
    scale at the end of the sequence; with one factor it is uniform. *)
Definition add_scale (factor : Q) (factor_y : option Q) (t : Transformation)
  : Transformation :=
  t ++ [Scale factor (match factor_y with Some f => f | None => factor end)].

Definition Point : Type := (Q * Q)%type.

(** Modelled from the spec: what one operation (missing from the source)
    does to a point. *)
Definition apply_op (p : Point) (op : AffineOp) : Point :=
  match op with
  | Translate dx dy => (fst p + dx, snd p + dy)
  | Scale sx sy => (fst p * sx, snd p * sy)
  end.

(** Modelled from the spec: applying a [Transformation] (missing from the
    source) to a point runs its operations left to right, oldest first. *)
Definition apply (t : Transformation) (p : Point) : Point :=
  fold_left apply_op t p.

(** Two points are the same when their coordinates are equal rationals. *)
Definition Point_eq (p q : Point) : Prop := fst p == fst q /\ snd p == snd q.

(** ** Options *)

Record Options : Type := mkOptions {
  laser_command : string;
  laser_power_range : Z;
  travel_speed : Q;
  cutting_speed : Q;
  pass_depth : Q;
  passes : Z;
  opt_unit : string;            (* options.unit *)
  machine_origin : string;
  bed_width : Q;
  bed_height : Q;
  horizontal_offset : Q;
  vertical_offset : Q;
  scaling_factor : Q;
  draw_debug : bool
}.

(** ** Strings: isnumeric and slicing *)

Definition is_digit (c : ascii) : bool :=
  let n := nat_of_ascii c in (48 <=? n)%nat && (n <=? 57)%nat.

(** [s.isnumeric()] on the ASCII strings of this model: not empty and
    every character a decimal digit. *)
Definition isnumeric (s : string) : bool :=
  negb (String.eqb s "") && forallb is_digit (list_ascii_of_string s).

(** [s[:-2]]: [s] without its last two characters, empty when [s] has
    fewer than two. *)
Definition drop_last_two (s : string) : string :=
  substring 0 (String.length s - 2) s.

(** ** The renderers and the generation pass *)

Section Extension.

(** What the extension takes from Python and from svg_to_gcode. *)
Variable Curve : Type.
Variable LineSegmentChain : Type.

(** [str(v)] of a number. *)
Variable str_num : Q -> string.

(** [float(s)]; [None] stands for the ValueError of a bad literal. *)
Variable float : string -> option Q.

(** [parse_root(root, transform_origin=..., root_transformation=...)] *)
Variable parse_root : Element -> bool -> Transformation -> res (list Curve).

(** [Compiler(custom_interface, movement_speed, cutting_speed, pass_depth,
    unit=unit)], [append_curves(curves)] and [compile_to_file(output_path,
    passes=passes)], as a function of the laser command, the power range,
    the two speeds, the pass depth, the unit, the curves and the number
    of passes.  The file it writes is outside the document. *)
Variable compile_to_file :
  string -> Z -> Q -> Q -> Q -> string -> list Curve -> Z -> res unit.

(** [LineSegmentChain.line_segment_approximation(curve)] *)
Variable line_segment_approximation : Curve -> LineSegmentChain.

(** [debug_methods.arrow_defs()] and [debug_methods.to_svg_path(
    approximation, color=, stroke_width=, transformation=, draw_arrows=)],
    each already carried over to an lxml element
    ([etree.fromstring(xml_tree.tostring(...))]). *)
Variable arrow_defs : Element.
Variable to_svg_path :
  LineSegmentChain -> string -> string -> Transformation -> bool -> Element.

(** *** draw_debug_traces *)

(** [float(height_str) if height_str.isnumeric() else
    float(height_str[:-2])] *)
Definition float_or_raise (literal : string) : res Q :=
  match float literal with
  | Some v => Ok v
  | None => Raise (ValueError ("could not convert string to float: " ++ literal))
  end.

Definition parse_height (height_str : string) : res Q :=
  if isnumeric height_str then float_or_raise height_str
  else float_or_raise (drop_last_two height_str).

(** [root.get("height")] is [None] when the attribute is absent, and
    [None.isnumeric()] raises AttributeError. *)
Definition canvas_height_of (root : Element) : res Q :=
  match get root "height" with
  | Some height_str => parse_height height_str
  | None => Raise AttributeError
  end.

(** The transformation built afresh for each curve of the loop. *)
Definition change_origin (origin : string) (canvas_height : Q)
           (bed_width bed_height : Q) : Transformation :=
  let change_origin := new_Transformation in
  let change_origin :=
    if negb (String.eqb origin "top-left") then
      add_translation 0 (- canvas_height)
        (add_scale 1 (Some (- (1))) change_origin)
    else change_origin in
  if String.eqb origin "center" then
    add_translation (bed_width / 2) (bed_height / 2) change_origin
  else change_origin.

(** One turn of the loop over the curves. *)
Definition trace_curve (opts : Options) (canvas_height : Q)
           (group : Element) (curve : Curve) : Element :=
  let approximation := line_segment_approximation curve in
  let change_origin :=
    change_origin (machine_origin opts) canvas_height
                  (bed_width opts) (bed_height opts) in
  append (to_svg_path approximation "red" "0.5" change_origin true) group.

Definition debug_traces_group (opts : Options) (canvas_height : Q)
           (curves : list Curve) : Element :=
  let group := new_element (qname svg_name_space "g") in
  let group := set "id" "debug_traces" group in
  let group := set (qname inkscape_name_space "groupmode") "layer" group in
  let group :=
    set (qname inkscape_name_space "label") "debug laser traces" group in
  let group := append arrow_defs group in
  fold_left (trace_curve opts canvas_height) curves group.

Definition draw_debug_traces (opts : Options) (curves : list Curve)
           (root : Element) : res Element :=
  canvas_height <- canvas_height_of root ;;
  Ok (append (debug_traces_group opts canvas_height curves) root).

(** *** draw_unit_reference *)

Definition reference_points_svg (bed_width bed_height : Q) : list (Q * Q) :=
  [(0, 0); (0, bed_height); (bed_width, 0); (bed_width, bed_height)].

(** The dict literal indexed by [origin]. *)
Definition reference_points_gcode_dict (bed_width bed_height : Q)
  : list (string * list (Q * Q)) :=
  [ ("bottom-left",
     [(0, bed_height); (0, 0); (bed_width, bed_height); (bed_width, 0)]);
    ("top-left",
     [(0, 0); (0, bed_height); (bed_width, 0); (bed_width, bed_height)]);
    ("center",
     [(- bed_width / 2, bed_height / 2); (- bed_width / 2, - bed_height / 2);
      (bed_width / 2, bed_height / 2); (bed_width / 2, - bed_height / 2)]) ].

Fixpoint dict_get {V : Type} (key : string) (d : list (string * V))
  : res V :=
  match d with
  | [] => Raise (KeyError key)
  | (k, v) :: r => if String.eqb k key then Ok v else dict_get key r
  end.

Definition reference_points_gcode (origin : string) (bed_width bed_height : Q)
  : res (list (Q * Q)) :=
  dict_get origin (reference_points_gcode_dict bed_width bed_height).

Definition stroke_width : Q := 2.
Definition size : Q := 7.

(** [-1 if x > 0 else 1] *)
Definition x_direction (x : Q) : Q := if gt0 x then - (1) else 1.
Definition y_direction (y : Q) : Q := if gt0 y then - (1) else 1.

(** [y - (y <= 0) * 6 + (y > 0) * 9] *)
Definition text_y (y : Q) : Q :=
  y - bool_num (le0 y) * 6 + bool_num (gt0 y) * 9.

Definition line_style : string :=
  "stroke:black;stroke-width:" ++ str_num stroke_width.

Definition horizontal_line (x y : Q) : Element :=
  let horizontal := new_element (qname svg_name_space "line") in
  let horizontal :=
    set "x1" (str_num (x - x_direction x * stroke_width / 2)) horizontal in
  let horizontal := set "y1" (str_num y) horizontal in
  let horizontal := set "x2" (str_num (x + x_direction x * size)) horizontal in
  let horizontal := set "y2" (str_num y) horizontal in
  set "style" line_style horizontal.

Definition vertical_line (x y : Q) : Element :=
  let vertical := new_element (qname svg_name_space "line") in
  let vertical := set "x1" (str_num x) vertical in
  let vertical := set "y1" (str_num (y + stroke_width / 2)) vertical in
  let vertical := set "x2" (str_num x) vertical in
  let vertical := set "y2" (str_num (y + y_direction y * size)) vertical in
  set "style" line_style vertical.

(** [f"{label[0]}{unit}, {label[1]}{unit}"] *)
Definition label_text (unit : string) (label : Q * Q) : string :=
  str_num (fst label) ++ unit ++ ", " ++ str_num (snd label) ++ unit.

Definition text_box (unit : string) (x y : Q) (label : Q * Q) : Element :=
  let text_box := new_element (qname svg_name_space "text") in
  let text_box := set "x" (str_num (x - 28)) text_box in
  let text_box := set "y" (str_num (text_y y)) text_box in
  let text_box := set "font-size" "6" text_box in
  set_text (label_text unit label) text_box.

(** The body of the loop, for the [i]-th corner [(x, y)]. *)
Definition reference_point (unit : string) (labels : list (Q * Q))
           (i : nat) (x y : Q) : res Element :=
  let reference_point := new_element (qname svg_name_space "g") in
  let plus_sign := new_element (qname svg_name_space "g") in
  let plus_sign := append (horizontal_line x y) plus_sign in
  let plus_sign := append (vertical_line x y) plus_sign in
  let reference_point := append plus_sign reference_point in
  match nth_error labels i with
  | Some label =>
      Ok (append (text_box unit x y label) reference_point)
  | None => Raise IndexError
  end.

(** [for i, (x, y) in enumerate(points)], counting from [i]. *)
Fixpoint reference_loop (unit : string) (labels : list (Q * Q)) (i : nat)
         (points : list (Q * Q)) (group : Element) : res Element :=
  match points with
  | [] => Ok group
  | (x, y) :: rest =>
      reference_point <- reference_point unit labels i x y ;;
      reference_loop unit labels (S i) rest (append reference_point group)
  end.

Definition draw_unit_reference (opts : Options) (root : Element)
  : res Element :=
  let group := new_element (qname svg_name_space "g") in
  let group := set "id" "debug_references" group in
  let group := set (qname inkscape_name_space "groupmode") "layer" group in
  let group :=
    set (qname inkscape_name_space "label") "debug reference points" group in
  let reference_points_svg :=
    reference_points_svg (bed_width opts) (bed_height opts) in
  reference_points_gcode <-
    reference_points_gcode (machine_origin opts)
                           (bed_width opts) (bed_height opts) ;;
  group <- reference_loop (opt_unit opts) reference_points_gcode 0
                          reference_points_svg group ;;
  Ok (append group root).

(** *** effect *)

(** Lines 96 to 102: the transformation handed to [parse_root]. *)
Definition forward_transformation (opts : Options) : Transformation :=
  let transformation := new_Transformation in
  let transformation :=
    add_translation (horizontal_offset opts) (vertical_offset opts)
                    transformation in
  let transformation :=
    add_scale (scaling_factor opts) None transformation in
  if String.eqb (machine_origin opts) "center" then
    add_translation (- bed_width opts / 2) (bed_height opts / 2)
                    transformation
  else transformation.

(** Lines 104 to 106. *)
Definition transform_origin (opts : Options) : bool :=
  if String.eqb (machine_origin opts) "top-left" then false else true.

(** The generation pass on the document whose root is [root], from
    [self.clear_debug()] on; what comes before reads options and files
    and leaves the document alone. *)
Definition effect (opts : Options) (root : Element) : res Element :=
  root <- clear_debug root ;;
  curves <- parse_root root (transform_origin opts)
                       (forward_transformation opts) ;;
  _ <- compile_to_file (laser_command opts) (laser_power_range opts)
                       (travel_speed opts) (cutting_speed opts)
                       (pass_depth opts) (opt_unit opts) curves
                       (passes opts) ;;
  if draw_debug opts then
    root <- draw_debug_traces opts curves root ;;
    draw_unit_reference opts root
  else Ok root.

End Extension.

Arguments trace_curve {Curve LineSegmentChain}.
Arguments debug_traces_group {Curve LineSegmentChain}.
Arguments draw_debug_traces {Curve LineSegmentChain}.
Arguments effect {Curve LineSegmentChain}.

(** ** Observations used in the statements *)

(** The number of children of [root] that [find] can return for [ident]. *)
Definition overlay_count (ident : string) (root : Element) : nat :=
  List.length (filter (is_group_with_id ident) (children root)).

(** A list without the first element that satisfies [p]. *)
Fixpoint remove_first (p : Element -> bool) (l : list Element) : list Element :=
  match l with
  | [] => []
  | c :: r => if p c then r else c :: remove_first p r
  end.

Definition with_children (root : Element) (l : list Element) : Element :=
  mkElement (tag root) (attrib root) (text root) l.

(** A path element, with or without the svg namespace in its tag. *)
Definition is_path (e : Element) : bool :=
  String.eqb (tag e) (qname svg_name_space "path") || String.eqb (tag e) "path".

Definition path_children (e : Element) : list Element :=
  filter is_path (children e).

(** The label of a marker: the text of its second child. *)
Definition marker_label (reference_point : Element) : option string :=
  match children reference_point with
  | [_; text_box] => text text_box
  | _ => None
  end.

(** The labels of the markers of the group appended last to [root]. *)
Definition last_group_labels (root : Element) : list (option string) :=
  match rev (children root) with
  | group :: _ => map marker_label (children group)
  | [] => []
  end.

(** A string made of decimal digits only, and of at least one. *)
Definition decimal_digits : list ascii :=
  list_ascii_of_string "0123456789".

Definition solely_digits (s : string) : Prop :=
  s <> ""%string /\ Forall (fun c => In c decimal_digits) (list_ascii_of_string s).

(** The options with another origin. *)
Definition with_origin (origin : string) (o : Options) : Options :=
  mkOptions (laser_command o) (laser_power_range o) (travel_speed o)
            (cutting_speed o) (pass_depth o) (passes o) (opt_unit o)
            origin (bed_width o) (bed_height o) (horizontal_offset o)
            (vertical_offset o) (scaling_factor o) (draw_debug o).

(** Modelled from the spec: in document space the y axis points down (the
    glossary), so of two heights on the page the smaller one is above. *)
Definition above_in_document (a b : Q) : Prop := a < b.
Definition below_in_document (a b : Q) : Prop := b < a.

Definition recognized (origin : string) : Prop :=
  origin = "top-left"%string \/ origin = "bottom-left"%string
  \/ origin = "center"%string.

(** ** A small instance of the collaborators

    Used to run the pass on concrete documents: a curve is a list of
    points, a number prints as a fraction, [float] reads decimal literals
    only, every child of the root parses to one curve, and the compiler
    always succeeds. *)

Definition sample_str_num (v : Q) : string :=
  let r := Qred v in
  NilZero.string_of_int (Z.to_int (Qnum r)) ++ "/" ++
  NilZero.string_of_int (Z.to_int (Z.pos (Qden r))).

Fixpoint digits_value (acc : Z) (l : list ascii) : option Z :=
  match l with
  | [] => Some acc
  | c :: r =>
      if is_digit c
      then digits_value (10 * acc + Z.of_nat (nat_of_ascii c - 48)) r
      else None
  end.

Fixpoint split_at_dot (l : list ascii) : list ascii * option (list ascii) :=
  match l with
  | [] => ([], None)
  | c :: r =>
      if Ascii.eqb c "."%char then ([], Some r)
      else let (a, b) := split_at_dot r in (c :: a, b)
  end.

Definition sample_float (s : string) : option Q :=
  match split_at_dot (list_ascii_of_string s) with
  | ([], _) => None
  | (whole, None) =>
      option_map (fun n => inject_Z n) (digits_value 0 whole)
  | (whole, Some frac) =>
      match digits_value 0 whole, digits_value 0 frac with
      | Some n, Some m =>
          Some (inject_Z n + inject_Z m / inject_Z (10 ^ Z.of_nat (List.length frac)))
      | _, _ => None
      end
  end.

Definition sample_parse_root (root : Element) (transform_origin : bool)
           (t : Transformation) : res (list (list Point)) :=
  Ok (map (fun _ => [apply t (0, 0); apply t (1, 1)]) (children root)).

Definition sample_compile_to_file (laser_command : string) (power : Z)
           (movement_speed cutting_speed pass_depth : Q) (unit_name : string)
           (curves : list (list Point)) (passes : Z) : res unit :=
  Ok tt.

Definition sample_arrow_defs : Element :=
  mkElement (qname svg_name_space "defs") [] None [].

Definition sample_to_svg_path (chain : list Point) (color width : string)
           (t : Transformation) (draw_arrows : bool) : Element :=
  mkElement (qname svg_name_space "path")
            [("stroke", color); ("stroke-width", width);
             ("d", concat " " (map (fun p => (sample_str_num (fst (apply t p)) ++ ","
                                              ++ sample_str_num (snd (apply t p)))%string)
                                   chain))]
            None [].

Definition sample_effect : Options -> Element -> res Element :=
  effect sample_str_num sample_float
         sample_parse_root sample_compile_to_file (fun c => c)
         sample_arrow_defs sample_to_svg_path.

Definition sample_draw_debug_traces
  : Options -> list (list Point) -> Element -> res Element :=
  draw_debug_traces sample_float (fun c => c)
                    sample_arrow_defs sample_to_svg_path.

Definition sample_options (origin : string) (debug : bool) : Options :=
  mkOptions "M3" 255 3000 750 0 1 "mm" origin 200 100 0 0 1 debug.

(** A page of 200 by 100 with one rectangle on it. *)
Definition sample_rect : Element :=
  mkElement (qname svg_name_space "rect")
            [("x", "10"); ("y", "10"); ("width", "50"); ("height", "20")] None [].

Definition sample_document : Element :=
  mkElement (qname svg_name_space "svg")
            [("width", "200mm"); ("height", "100mm")] None [sample_rect].

(** The same page after somebody pasted a traces layer into it twice. *)
Definition stale_traces : Element :=
  mkElement (qname svg_name_space "g") [("id", "debug_traces")] None [].

Definition twice_pasted_document : Element :=
  mkElement (qname svg_name_space "svg")
            [("width", "200mm"); ("height", "100mm")] None
            [stale_traces; stale_traces].

(** What the pass with debug drawing makes of the page. *)
Definition sample_generated : Element :=
  Eval vm_compute in
    match sample_effect (sample_options "center" true) sample_document with
    | Ok generated => generated
    | Raise _ => sample_document
    end.

(** ** The rest of the extension *)

(** *** generate_custom_interface *)

Section CustomInterface.

(** [str(v)] of a number and [svg_to_gcode.formulas.linear_map]. *)
Variable str_num : Q -> string.
Variable linear_map : Q -> Q -> Q -> Q.

(** [a < b] on numbers. *)
Definition less (a b : Q) : bool := negb (Qle_bool b a).

(** [CustomInterface.set_laser_power(power)] for the interface made by
    [generate_custom_interface(laser_command, laser_power_range)]. *)
Definition set_laser_power (laser_command : string) (laser_power_range : Z)
           (power : Q) : res string :=
  if less power 0 || less 1 power then
    Raise (ValueError (str_num power ++
      " is out of bounds. Laser power must be given between 0 and 1. " ++
      "The interface will scale it correctly.")%string)
  else
    Ok (laser_command ++ " S" ++
        str_num (linear_map 0 (inject_Z laser_power_range) power) ++ ";")%string.

(** [CustomInterface.laser_off()] *)
Definition laser_off (laser_command : string) (laser_power_range : Z)
  : res string :=
  set_laser_power laser_command laser_power_range 0.

End CustomInterface.

(** *** The head of effect: tolerance and output path *)

(** [s.replace(old, new)] for single characters. *)
Fixpoint replace (old new : ascii) (s : string) : string :=
  match s with
  | EmptyString => EmptyString
  | String c r =>
      String (if Ascii.eqb c old then new else c) (replace old new r)
  end.

(** [float(approximation_tolerance_string.replace(',', '.'))] *)
Definition approximation_tolerance (float : string -> option Q)
           (approximation_tolerance_string : string) : res Q :=
  float_or_raise float (replace "," "." approximation_tolerance_string).

(** [s.split(sep)] for a single character: the pieces between the
    separators, one more than there are separators. *)
Fixpoint str_split (sep : ascii) (s : string) : list string :=
  match s with
  | EmptyString => [EmptyString]
  | String c r =>
      if Ascii.eqb c sep then EmptyString :: str_split sep r
      else match str_split sep r with
           | piece :: pieces => String c piece :: pieces
           | [] => [String c EmptyString]
           end
  end.

(** [a, b = pieces]: ValueError unless there are exactly two. *)
Definition unpack_two (pieces : list string) : res (string * string) :=
  match pieces with
  | [a; b] => Ok (a, b)
  | [] | [_] => Raise (ValueError "not enough values to unpack (expected 2)")
  | _ => Raise (ValueError "too many values to unpack (expected 2)")
  end.

(** [str(n)] of a counter. *)
Definition str_int (n : nat) : string :=
  NilEmpty.string_of_uint (Nat.to_uint n).

Section OutputPath.

(** [os.path.join] and [os.path.isfile]; the files do not change while
    the loop runs. *)
Variable os_path_join : string -> string -> string.
Variable isfile : string -> bool.

(** [filename + str(n) + '.' + extension] *)
Definition numbered (filename extension : string) (n : nat) : string :=
  (filename ++ str_int n ++ "." ++ extension)%string.

(** [while os.path.isfile(output_path): ...], for at most [fuel] turns;
    [None] when the loop is still running after them. *)
Fixpoint suffix_loop (fuel : nat) (filename extension : string) (n : nat)
         (output_path : string) : option string :=
  if isfile output_path then
    match fuel with
    | O => None
    | S fuel' =>
        suffix_loop fuel' filename extension (S n)
                    (numbered filename extension n)
    end
  else Some output_path.

(** Lines 68 to 75. *)
Definition output_path (directory filename : string) (filename_suffix : bool)
           (fuel : nat) : res (option string) :=
  let output_path := os_path_join directory filename in
  if filename_suffix then
    pair <- unpack_two (str_split "." output_path) ;;
    let (filename, extension) := pair in
    Ok (suffix_loop fuel filename extension 1 output_path)
  else Ok (Some output_path).

End OutputPath.

(** *** read_arguments *)

Inductive InxError : Type :=
| InxKeyError (key : string)   (* KeyError of [attrib[...]] or [types[...]] *)
| StopIteration.               (* [next] of an exhausted iterator *)

Inductive inx_res (A : Type) : Type :=
| Read (a : A)
| Stop (e : InxError).
Arguments Read {A} a.
Arguments Stop {A} e.

(** The types handed to the argument parser. *)
Inductive ArgType : Type := py_int | py_float | Boolean | py_str.

Record Argument : Type := mkArgument { arg_name : string; arg_type : ArgType }.

(** [root.iter()]: the element and all its descendants, in document
    order. *)
Fixpoint iter_all (e : Element) : list Element :=
  match e with
  | mkElement _ _ _ c =>
      e :: (fix over (l : list Element) : list Element :=
              match l with
              | [] => []
              | x :: r => iter_all x ++ over r
              end) c
  end.

(** [root.iter(tag)] *)
Definition iter (root : Element) (t : string) : list Element :=
  filter (fun e => String.eqb (tag e) t) (iter_all root).

Definition inx_namespace : string :=
  "http://www.inkscape.org/namespace/inkscape/extension".

(** [d[key]] *)
Fixpoint item {V : Type} (key : string) (d : list (string * V)) : inx_res V :=
  match d with
  | [] => Stop (InxKeyError key)
  | (k, v) :: r => if String.eqb k key then Read v else item key r
  end.

Definition types : list (string * ArgType) :=
  [("int", py_int); ("float", py_float); ("boolean", Boolean);
   ("string", py_str); ("enum", py_str); ("path", py_str)].

Definition skipped (arg_type : string) : bool :=
  String.eqb arg_type "description" || String.eqb arg_type "notebook".

(** The loop over the [param] elements. *)
Fixpoint read_params (params : list Element) (arguments : list Argument)
  : inx_res (list Argument) :=
  match params with
  | [] => Read arguments
  | arg :: rest =>
      match item "name" (attrib arg) with
      | Stop e => Stop e
      | Read name =>
          match item "type" (attrib arg) with
          | Stop e => Stop e
          | Read arg_type =>
              if skipped arg_type then read_params rest arguments
              else
                match item arg_type types with
                | Stop e => Stop e
                | Read t =>
                    read_params rest (arguments ++ [mkArgument name t])
                end
          end
      end
  end.

(** [read_arguments], on the root of the parsed inx file. *)
Definition read_arguments (root : Element) : inx_res (list Argument) :=
  match read_params (iter root (qname inx_namespace "param")) [] with
  | Stop e => Stop e
  | Read arguments =>
      match iter root (qname inx_namespace "page") with
      | [] => Stop StopIteration
      | _ :: _ => Read (arguments ++ [mkArgument "tabs" py_str])
      end
  end.

(** [add_arguments]: one [add_argument("--" + name, type=type, dest=name)]
    for each argument read. *)
Definition add_arguments (root : Element)
  : inx_res (list (string * ArgType * string)) :=
  match read_arguments root with
  | Stop e => Stop e
  | Read arguments =>
      Read (map (fun arg => ("--" ++ arg_name arg, arg_type arg, arg_name arg))%string
                arguments)
  end.

(** ** More observations *)

(** An overlay group of either kind. *)
Definition is_overlay (e : Element) : bool :=
  is_group_with_id "debug_traces" e || is_group_with_id "debug_references" e.

(** The children that are not overlay groups: the drawing itself. *)
Definition drawing (root : Element) : list Element :=
  filter (fun e => negb (is_overlay e)) (children root).

(** The number of separators in a string. *)
Fixpoint count_char (sep : ascii) (s : string) : nat :=
  match s with
  | EmptyString => O
  | String c r => (if Ascii.eqb c sep then 1 else 0) + count_char sep r
  end.

(** The files of a directory listing. *)
Definition listed (files : list string) (path : string) : bool :=
  existsb (String.eqb path) files.

(** The [param] elements that make an argument. *)
Definition makes_argument (arg : Element) : bool :=
  match lookup "type" (attrib arg) with
  | Some arg_type => negb (skipped arg_type)
  | None => false
  end.

(** What one [param] element contributes. *)
Definition argument_of (arg : Element) (a : Argument) : Prop :=
  lookup "name" (attrib arg) = Some (arg_name a) /\
  exists arg_type',
    lookup "type" (attrib arg) = Some arg_type' /\
    item arg_type' types = Read (arg_type a).

(** A [param] element that the loop cannot take. *)
Definition ill_formed (arg : Element) : Prop :=
  lookup "name" (attrib arg) = None \/
  lookup "type" (attrib arg) = None \/
  exists arg_type,
    lookup "type" (attrib arg) = Some arg_type /\
    skipped arg_type = false /\
    ~ In arg_type (map fst types).

(** ** A small inx file and a small directory *)

Definition sample_param (name type : string) : Element :=
  mkElement (qname inx_namespace "param") [("name", name); ("type", type)]
            None [].

Definition sample_inx : Element :=
  mkElement (qname inx_namespace "inkscape-extension") [] None
    [ mkElement (qname inx_namespace "param")
        [("name", "tabs"); ("type", "notebook")] None
        [ mkElement (qname inx_namespace "page") [("name", "settings")] None
            [ sample_param "bed_width" "float";
              sample_param "machine_origin" "enum";
              sample_param "note" "description";
              sample_param "draw_debug" "boolean" ] ] ].

Definition sample_files : list string :=
  ["/out/drawing.gcode"; "/out/drawing1.gcode"; "/out/other.gcode"]%string.

Definition sample_join (directory filename : string) : string :=
  (directory ++ "/" ++ filename)%string.

Definition sample_linear_map (low high t : Q) : Q :=
  low * (1 - t) + high * t.

(** An inx file without pages, and one with a type the loop does not
    know. *)
Definition sample_inx_flat : Element :=
  mkElement (qname inx_namespace "inkscape-extension") [] None
    [ sample_param "bed_width" "float"; sample_param "note" "description" ].

Definition sample_inx_optiongroup : Element :=
  mkElement (qname inx_namespace "inkscape-extension") [] None
    [ mkElement (qname inx_namespace "page") [("name", "settings")] None
        [ sample_param "bed_width" "float";
          sample_param "machine_origin" "optiongroup" ] ].

(** The page without a height, as a drawing with a view box only has it. *)
Definition sample_document_no_height : Element :=
  mkElement (qname svg_name_space "svg")
            [("viewBox", "0 0 200 100")] None [sample_rect].

(** The curves of the page and what the trace renderer makes of it. *)
Definition sample_curves : list (list Point) :=
  Eval vm_compute in
    match sample_parse_root sample_document true
            (forward_transformation (sample_options "center" true)) with
    | Ok curves => curves
    | Raise _ => []
    end.

Definition sample_traced : Element :=
  Eval vm_compute in
    match sample_draw_debug_traces (sample_options "center" true)
            sample_curves sample_document with
    | Ok traced => traced
    | Raise _ => sample_document
    end.

(** * Properties *)

(** ** Elements and their comparison *)

Lemma Element_nested_ind (P : Element -> Prop) :
  (forall t a x c, Forall P c -> P (mkElement t a x c)) ->
  forall e, P e.
Proof.
  intros step. fix IH 1. intros [t a x c]. apply step.
  induction c as [|e c IHc]; constructor.
  - apply IH.
  - exact IHc.
Qed.

Lemma attrib_eqb_eq a b : attrib_eqb a b = true -> a = b.
Proof.
  revert b. induction a as [|[k1 v1] a IH]; intros [|[k2 v2] b]; simpl;
    try discriminate; auto.
  intros H. apply andb_prop in H as [H Hr]. apply andb_prop in H as [Hk Hv].
  apply String.eqb_eq in Hk, Hv. subst. f_equal. auto.
Qed.

Lemma attrib_eqb_refl a : attrib_eqb a a = true.
Proof.
  induction a as [|[k v] a IH]; simpl; auto.
  now rewrite !String.eqb_refl, IH.
Qed.

Lemma option_eqb_eq a b : option_eqb a b = true -> a = b.
Proof.
  destruct a, b; simpl; try discriminate; auto.
  intros H. apply String.eqb_eq in H. now subst.
Qed.

Lemma option_eqb_refl a : option_eqb a a = true.
Proof. destruct a; simpl; auto using String.eqb_refl. Qed.

Lemma Element_eqb_eq a : forall b, Element_eqb a b = true -> a = b.
Proof.
  induction a as [t1 a1 x1 c1 IH] using Element_nested_ind.
  intros [t2 a2 x2 c2]. simpl. intros H.
  apply andb_prop in H as [H Hc]. apply andb_prop in H as [H Hx].
  apply andb_prop in H as [Ht Ha].
  apply String.eqb_eq in Ht. apply attrib_eqb_eq in Ha.
  apply option_eqb_eq in Hx. subst. f_equal.
  revert c2 Hc. induction IH as [|e c He _ IHc]; intros [|e2 c2]; simpl;
    try discriminate; auto.
  intros H. apply andb_prop in H as [H1 H2].
  f_equal; auto.
Qed.

Lemma Element_eqb_refl a : Element_eqb a a = true.
Proof.
  induction a as [t a x c IH] using Element_nested_ind. simpl.
  rewrite String.eqb_refl, attrib_eqb_refl, option_eqb_refl. simpl.
  induction IH as [|e c He _ IHc]; simpl; auto.
  now rewrite He, IHc.
Qed.

(** ** find, remove and clear_debug *)

(** Removing the node that [List.find] returned removes the first node
    that satisfies the predicate. *)
Lemma remove_child_found p l e :
  List.find p l = Some e -> remove_child e l = Some (remove_first p l).
Proof.
  induction l as [|c r IH]; simpl; [discriminate|].
  destruct (p c) eqn:Hp.
  - intros [= ->]. now rewrite Element_eqb_refl.
  - intros Hf. destruct (Element_eqb c e) eqn:He.
    + apply Element_eqb_eq in He. subst c.
      apply find_some in Hf as [_ Hf]. congruence.
    + now rewrite (IH Hf).
Qed.

Lemma find_remove_first_other (p q : Element -> bool) l :
  (forall x, q x = true -> p x = false) ->
  List.find p (remove_first q l) = List.find p l.
Proof.
  intros Hpq. induction l as [|c r IH]; simpl; auto.
  destruct (q c) eqn:Hq.
  - now rewrite (Hpq c Hq).
  - simpl. now rewrite IH.
Qed.

Lemma find_none_remove_first p l :
  List.find p l = None -> remove_first p l = l.
Proof.
  induction l as [|c r IH]; simpl; auto.
  destruct (p c); [discriminate|]. intros H. now rewrite IH.
Qed.

Lemma traces_not_references x :
  is_group_with_id "debug_traces" x = true ->
  is_group_with_id "debug_references" x = false.
Proof.
  unfold is_group_with_id. destruct (tag x =? _)%string; simpl; auto.
  destruct (get x "id") as [v|]; auto.
  intros H. apply String.eqb_eq in H. now subst v.
Qed.

(** [clear_debug] never raises: it returns the root without the first
    traces group and without the first references group. *)
Lemma clear_debug_removes_first root :
  clear_debug root =
  Ok (with_children root
        (remove_first (is_group_with_id "debug_references")
           (remove_first (is_group_with_id "debug_traces") (children root)))).
Proof.
  unfold clear_debug, find, remove, bind.
  destruct root as [t a x c]. simpl.
  pose proof (find_remove_first_other
                (is_group_with_id "debug_references")
                (is_group_with_id "debug_traces") c traces_not_references) as Hr.
  destruct (List.find (is_group_with_id "debug_traces") c) as [e1|] eqn:H1.
  - rewrite (remove_child_found _ _ _ H1). simpl.
    destruct (List.find (is_group_with_id "debug_references") c) as [e2|] eqn:H2.
    + rewrite (remove_child_found _ _ _ Hr). reflexivity.
    + rewrite (find_none_remove_first _ _ Hr). reflexivity.
  - rewrite (find_none_remove_first _ _ H1). simpl.
    destruct (List.find (is_group_with_id "debug_references") c) as [e2|] eqn:H2.
    + rewrite (remove_child_found _ _ _ H2). reflexivity.
    + rewrite (find_none_remove_first _ _ H2). reflexivity.
Qed.

Lemma references_not_traces x :
  is_group_with_id "debug_references" x = true ->
  is_group_with_id "debug_traces" x = false.
Proof.
  intros H. destruct (is_group_with_id "debug_traces" x) eqn:Ht; auto.
  apply traces_not_references in Ht. congruence.
Qed.

Lemma filter_remove_first_same p l :
  (List.length (filter p l) <= 1)%nat -> filter p (remove_first p l) = [].
Proof.
  induction l as [|c r IH]; simpl; auto.
  destruct (p c) eqn:Hp; simpl.
  - intros H. destruct (filter p r); [reflexivity | simpl in H; lia].
  - rewrite Hp. exact IH.
Qed.

Lemma filter_remove_first_other (p q : Element -> bool) l :
  (forall x, q x = true -> p x = false) ->
  filter p (remove_first q l) = filter p l.
Proof.
  intros Hpq. induction l as [|c r IH]; simpl; auto.
  destruct (q c) eqn:Hq.
  - now rewrite (Hpq c Hq).
  - simpl. now rewrite IH.
Qed.

Lemma filter_nil_remove_first p l : filter p l = [] -> remove_first p l = l.
Proof.
  induction l as [|c r IH]; simpl; auto.
  destruct (p c); [discriminate|]. intros H. now rewrite IH.
Qed.

Lemma with_children_same root : with_children root (children root) = root.
Proof. now destruct root. Qed.

(** After [clear_debug], a document that held at most one overlay group
    of each kind holds none. *)
Lemma clear_debug_leaves_none root :
  (overlay_count "debug_traces" root <= 1)%nat ->
  (overlay_count "debug_references" root <= 1)%nat ->
  exists rest,
    clear_debug root = Ok (with_children root rest) /\
    filter (is_group_with_id "debug_traces") rest = [] /\
    filter (is_group_with_id "debug_references") rest = [].
Proof.
  unfold overlay_count. intros Ht Hr. eexists. split.
  - apply clear_debug_removes_first.
  - split.
    + rewrite (filter_remove_first_other _ _ _ references_not_traces).
      now apply filter_remove_first_same.
    + apply filter_remove_first_same.
      now rewrite (filter_remove_first_other _ _ _ traces_not_references).
Qed.

Lemma clear_debug_nothing_to_remove root :
  filter (is_group_with_id "debug_traces") (children root) = [] ->
  filter (is_group_with_id "debug_references") (children root) = [] ->
  clear_debug root = Ok root.
Proof.
  intros Ht Hr. rewrite clear_debug_removes_first.
  rewrite (filter_nil_remove_first _ _ Ht), (filter_nil_remove_first _ _ Hr).
  now rewrite with_children_same.
Qed.

(** C6, as the code has it.  On a document whose root has at most one
    traces group and at most one references group among its children,
    [clear_debug] returns without an error, and a second call on its
    result returns that result unchanged, again without an error.  When
    the root has neither group the first call already returns the document
    as it was. *)
Theorem clear_debug_idempotent root :
  (overlay_count "debug_traces" root <= 1)%nat ->
  (overlay_count "debug_references" root <= 1)%nat ->
  exists cleared,
    clear_debug root = Ok cleared /\
    clear_debug cleared = Ok cleared /\
    (overlay_count "debug_traces" root = 0%nat ->
     overlay_count "debug_references" root = 0%nat ->
     cleared = root).
Proof.
  intros Ht Hr.
  destruct (clear_debug_leaves_none root Ht Hr) as (rest & Hc & Ft & Fr).
  exists (with_children root rest). split; [exact Hc|]. split.
  - apply clear_debug_nothing_to_remove; destruct root; assumption.
  - unfold overlay_count. intros Zt Zr.
    apply length_zero_iff_nil in Zt, Zr.
    pose proof (clear_debug_nothing_to_remove root Zt Zr) as Hn.
    congruence.
Qed.

Lemma clear_debug_idempotent_witness :
  exists cleared,
    clear_debug sample_generated = Ok cleared /\
    clear_debug cleared = Ok cleared /\
    (overlay_count "debug_traces" sample_generated = 0%nat ->
     overlay_count "debug_references" sample_generated = 0%nat ->
     cleared = sample_generated).
Proof.
  apply (clear_debug_idempotent sample_generated); vm_compute; lia.
Defined.

(** C6, as it is stated, fails on a document with two traces groups: the
    first call removes one of them and the second call removes the other. *)
Lemma clear_debug_twice_counterexample :
  clear_debug twice_pasted_document =
    Ok (with_children twice_pasted_document [stale_traces]) /\
  clear_debug (with_children twice_pasted_document [stale_traces]) =
    Ok (with_children twice_pasted_document []) /\
  with_children twice_pasted_document [stale_traces] <>
    with_children twice_pasted_document [].
Proof.
  split; [reflexivity|]. split; [reflexivity|]. discriminate.
Qed.

(** ** Strings *)

Lemma is_digit_existsb c :
  is_digit c = existsb (Ascii.eqb c) decimal_digits.
Proof.
  destruct c as [[] [] [] [] [] [] [] []]; reflexivity.
Qed.

Lemma is_digit_In c : is_digit c = true <-> In c decimal_digits.
Proof.
  rewrite is_digit_existsb, existsb_exists. split.
  - intros (d & Hd & He). apply Ascii.eqb_eq in He. now subst.
  - intros H. exists c. split; [exact H | apply Ascii.eqb_refl].
Qed.

Lemma isnumeric_solely_digits s : isnumeric s = true <-> solely_digits s.
Proof.
  unfold isnumeric, solely_digits.
  rewrite andb_true_iff, negb_true_iff, String.eqb_neq, forallb_forall,
    Forall_forall.
  split; intros [H1 H2]; (split; [exact H1|]); intros c Hc;
    apply is_digit_In; auto.
Qed.

Lemma substring_prefix p q : substring 0 (String.length p) (p ++ q) = p.
Proof.
  induction p as [|c p IH]; simpl.
  - now destruct q.
  - now rewrite IH.
Qed.

Lemma length_append p q :
  String.length (p ++ q) = (String.length p + String.length q)%nat.
Proof. induction p as [|c p IH]; simpl; auto. Qed.

(** [s[:-2]] is [s] without its last two characters. *)
Lemma drop_last_two_spec p a b :
  drop_last_two (p ++ String a (String b "")) = p.
Proof.
  unfold drop_last_two. rewrite length_append. simpl.
  replace (String.length p + 2 - 2)%nat with (String.length p) by lia.
  apply substring_prefix.
Qed.

(** ** The renderers and the pass *)

Section Properties.

Variable Curve : Type.
Variable LineSegmentChain : Type.
Variable str_num : Q -> string.
Variable float : string -> option Q.
Variable parse_root : Element -> bool -> Transformation -> res (list Curve).
Variable compile_to_file :
  string -> Z -> Q -> Q -> Q -> string -> list Curve -> Z -> res unit.
Variable line_segment_approximation : Curve -> LineSegmentChain.
Variable arrow_defs : Element.
Variable to_svg_path :
  LineSegmentChain -> string -> string -> Transformation -> bool -> Element.

Local Abbreviation traces_group :=
  (debug_traces_group line_segment_approximation arrow_defs to_svg_path).
Local Abbreviation traces :=
  (draw_debug_traces float line_segment_approximation arrow_defs to_svg_path).
Local Abbreviation references := (draw_unit_reference str_num).
Local Abbreviation pass :=
  (effect str_num float parse_root compile_to_file
          line_segment_approximation arrow_defs to_svg_path).

(** *** The canvas height *)

Lemma float_or_raise_none literal :
  float literal = None -> raises (float_or_raise float literal).
Proof.
  intros H. unfold float_or_raise. rewrite H. eexists. reflexivity.
Qed.

(** C10.  With [s] the height attribute of the root: when [s] is made
    of digits only, the canvas height is [float(s)]; otherwise it is
    [float] of [s] without its last two characters, so that ["297.5"]
    is read as ["297"]; and when [float] rejects what is left, the
    renderer raises. *)
Theorem canvas_height_from_attribute root s :
  get root "height" = Some s ->
  (solely_digits s ->
     canvas_height_of float root = float_or_raise float s) /\
  (~ solely_digits s ->
     canvas_height_of float root = float_or_raise float (drop_last_two s)) /\
  (forall p a b, s = (p ++ String a (String b ""))%string ->
     drop_last_two s = p) /\
  (s = "297.5"%string ->
     canvas_height_of float root = float_or_raise float "297") /\
  (~ solely_digits s -> float (drop_last_two s) = None ->
     forall opts curves, raises (traces opts curves root)).
Proof.
  intros Hs. unfold canvas_height_of. rewrite Hs. unfold parse_height.
  repeat split.
  - intros H. apply isnumeric_solely_digits in H. now rewrite H.
  - intros H. destruct (isnumeric s) eqn:E; auto.
    apply isnumeric_solely_digits in E. contradiction.
  - intros p a b ->. apply drop_last_two_spec.
  - intros ->. reflexivity.
  - intros H Hf opts curves. unfold draw_debug_traces, canvas_height_of.
    rewrite Hs. unfold parse_height.
    destruct (isnumeric s) eqn:E.
    + apply isnumeric_solely_digits in E. contradiction.
    + destruct (float_or_raise_none _ Hf) as [e He]. rewrite He.
      exists e. reflexivity.
Qed.

(** *** The trace renderer *)

Lemma fold_trace_curve opts canvas_height curves : forall group,
  fold_left (trace_curve line_segment_approximation to_svg_path
                         opts canvas_height) curves group =
  mkElement (tag group) (attrib group) (text group)
    (children group ++
     map (fun curve =>
            to_svg_path (line_segment_approximation curve) "red" "0.5"
              (change_origin (machine_origin opts) canvas_height
                             (bed_width opts) (bed_height opts)) true)
         curves).
Proof.
  induction curves as [|curve curves IH]; intros group; simpl.
  - rewrite app_nil_r. now destruct group.
  - rewrite IH. unfold trace_curve, append. simpl.
    now rewrite <- app_assoc.
Qed.

Lemma traces_group_shape opts canvas_height curves :
  traces_group opts canvas_height curves =
  mkElement (qname svg_name_space "g")
    [("id", "debug_traces");
     (qname inkscape_name_space "groupmode", "layer");
     (qname inkscape_name_space "label", "debug laser traces")]%string
    None
    (arrow_defs ::
     map (fun curve =>
            to_svg_path (line_segment_approximation curve) "red" "0.5"
              (change_origin (machine_origin opts) canvas_height
                             (bed_width opts) (bed_height opts)) true)
         curves).
Proof.
  unfold debug_traces_group. rewrite fold_trace_curve. reflexivity.
Qed.

(** C3.  Every curve is drawn by [to_svg_path] with the transformation
    [change_origin], which has no operation (and so maps every point to
    itself) when the origin is top-left, and otherwise starts with
    [Scale 1 (-1)] followed by [Translate 0 (- canvas_height)]; for the
    center origin [Translate (w/2) (h/2)] comes after them. *)
Theorem overlay_transformation opts canvas_height curves :
  let origin := machine_origin opts in
  let w := bed_width opts in
  let h := bed_height opts in
  children (traces_group opts canvas_height curves) =
    arrow_defs ::
    map (fun curve =>
           to_svg_path (line_segment_approximation curve) "red" "0.5"
             (change_origin origin canvas_height w h) true) curves /\
  change_origin origin canvas_height w h =
    (if String.eqb origin "top-left" then []
     else [Scale 1 (- (1)); Translate 0 (- canvas_height)]) ++
    (if String.eqb origin "center" then [Translate (w / 2) (h / 2)]
     else []) /\
  change_origin "top-left" canvas_height w h = [] /\
  (forall p, apply (change_origin "top-left" canvas_height w h) p = p) /\
  change_origin "bottom-left" canvas_height w h =
    [Scale 1 (- (1)); Translate 0 (- canvas_height)] /\
  change_origin "center" canvas_height w h =
    [Scale 1 (- (1)); Translate 0 (- canvas_height);
     Translate (w / 2) (h / 2)].
Proof.
  cbv zeta. split.
  - rewrite traces_group_shape. reflexivity.
  - repeat split. unfold change_origin.
    destruct (String.eqb (machine_origin opts) "top-left") eqn:E1;
      destruct (String.eqb (machine_origin opts) "center") eqn:E2;
      try reflexivity.
Qed.

(** C9, as the code has it.  With no curve, and a readable canvas
    height, the renderer returns without an error the document with one
    more child, the traces group; that group holds the arrow definitions
    and nothing else, so no path element as long as the arrow definitions
    are not one themselves. *)
Theorem no_curve_no_path opts root canvas_height :
  canvas_height_of float root = Ok canvas_height ->
  is_path arrow_defs = false ->
  exists group,
    traces opts [] root = Ok (append group root) /\
    children (append group root) = children root ++ [group] /\
    is_group_with_id "debug_traces" group = true /\
    children group = [arrow_defs] /\
    path_children group = [].
Proof.
  intros Hc Hp. exists (traces_group opts canvas_height []).
  unfold draw_debug_traces. rewrite Hc. simpl.
  repeat split. unfold path_children. simpl. now rewrite Hp.
Qed.

(** *** The reference markers *)

Lemma last_group_labels_append group root :
  last_group_labels (append group root) =
  map marker_label (children group).
Proof.
  unfold last_group_labels, append. simpl.
  now rewrite rev_app_distr.
Qed.

(** C1.  The corners are visited in the order top-left, bottom-left,
    top-right, bottom-right of the document, and the labels looked up
    for them are, in that order, [(0,h) (0,0) (w,h) (w,0)] for
    bottom-left, [(0,0) (0,h) (w,0) (w,h)] for top-left and
    [(-w/2,h/2) (-w/2,-h/2) (w/2,h/2) (w/2,-h/2)] for center; the
    markers drawn carry these labels, each number followed by the unit. *)
Theorem corner_labels opts root :
  let w := bed_width opts in
  let h := bed_height opts in
  reference_points_svg w h = [(0, 0); (0, h); (w, 0); (w, h)] /\
  reference_points_gcode "bottom-left" w h =
    Ok [(0, h); (0, 0); (w, h); (w, 0)] /\
  reference_points_gcode "top-left" w h =
    Ok [(0, 0); (0, h); (w, 0); (w, h)] /\
  reference_points_gcode "center" w h =
    Ok [(- w / 2, h / 2); (- w / 2, - h / 2);
        (w / 2, h / 2); (w / 2, - h / 2)] /\
  forall labels,
    reference_points_gcode (machine_origin opts) w h = Ok labels ->
    exists root',
      references opts root = Ok root' /\
      last_group_labels root' =
        map (fun label => Some (label_text str_num (opt_unit opts) label))
            labels.
Proof.
  cbv zeta. repeat split.
  intros labels H. unfold draw_unit_reference. rewrite H.
  unfold reference_points_gcode, reference_points_gcode_dict in H.
  cbn [dict_get] in H.
  destruct (String.eqb "bottom-left" (machine_origin opts));
    [|destruct (String.eqb "top-left" (machine_origin opts));
      [|destruct (String.eqb "center" (machine_origin opts));
        [|discriminate]]];
    injection H as <-; eexists; (split; [reflexivity|]);
    rewrite last_group_labels_append; reflexivity.
Qed.

Lemma gt0_true x : 0 < x -> gt0 x = true.
Proof.
  intros H. unfold gt0. destruct (Qle_bool x 0) eqn:E; auto.
  apply Qle_bool_iff in E. exfalso. exact (Qlt_not_le _ _ H E).
Qed.

Lemma gt0_false x : x <= 0 -> gt0 x = false.
Proof.
  intros H. unfold gt0. apply Qle_bool_iff in H. now rewrite H.
Qed.

(** C7.  The marker of the corner [(x, y)] holds a horizontal arm drawn
    to [x + x_direction * size] and a vertical arm drawn to
    [y + y_direction * size], where [x_direction] is -1 when [x > 0] and
    1 otherwise, and [y_direction] is -1 when [y > 0] and 1 otherwise;
    so at the corner [(0, h)] with [h > 0] the vertical direction is -1
    and the horizontal direction is 1. *)
Theorem crosshair_directions x y :
  (0 < x -> x_direction x = - (1)) /\
  (x <= 0 -> x_direction x = 1) /\
  (0 < y -> y_direction y = - (1)) /\
  (y <= 0 -> y_direction y = 1) /\
  (0 < y -> x_direction 0 = 1 /\ y_direction y = - (1)) /\
  get (horizontal_line str_num x y) "x2" =
    Some (str_num (x + x_direction x * size)) /\
  get (vertical_line str_num x y) "y2" =
    Some (str_num (y + y_direction y * size)) /\
  forall unit labels i marker,
    reference_point str_num unit labels i x y = Ok marker ->
    exists plus_sign text_box,
      children marker = [plus_sign; text_box] /\
      children plus_sign =
        [horizontal_line str_num x y; vertical_line str_num x y].
Proof.
  unfold x_direction, y_direction. repeat split.
  - intros H. now rewrite (gt0_true _ H).
  - intros H. now rewrite (gt0_false _ H).
  - intros H. now rewrite (gt0_true _ H).
  - intros H. now rewrite (gt0_false _ H).
  - now rewrite (gt0_true _ H).
  - intros unit labels i marker. unfold reference_point.
    destruct (nth_error labels i) as [label|]; [|discriminate].
    intros [= <-]. eexists. eexists. split; reflexivity.
Qed.

Lemma text_y_positive y : 0 < y -> text_y y == y + 9.
Proof.
  intros H. unfold text_y, le0.
  rewrite (gt0_true _ H).
  destruct (Qle_bool y 0) eqn:E.
  - apply Qle_bool_iff in E. exfalso. exact (Qlt_not_le _ _ H E).
  - simpl. ring.
Qed.

Lemma text_y_not_positive y : y <= 0 -> text_y y == y - 6.
Proof.
  intros H. unfold text_y, le0. rewrite (gt0_false _ H).
  apply Qle_bool_iff in H. rewrite H. simpl. ring.
Qed.

(** C8, as the code has it.  The label of the corner [(x, y)] is placed
    at height [y + 9] when [y > 0], which in the document (y pointing
    down) is below the corner, and at height [y - 6] when [y <= 0],
    which is above it. *)
Theorem label_height x y unit label :
  get (text_box str_num unit x y label) "y" = Some (str_num (text_y y)) /\
  (0 < y -> text_y y == y + 9 /\ below_in_document (text_y y) y) /\
  (y <= 0 -> text_y y == y - 6 /\ above_in_document (text_y y) y).
Proof.
  split; [reflexivity|]. unfold below_in_document, above_in_document.
  split; intros H.
  - pose proof (text_y_positive y H) as E. split; [exact E|].
    rewrite E. rewrite <- (Qplus_0_r y) at 1.
    apply Qplus_lt_r. reflexivity.
  - pose proof (text_y_not_positive y H) as E. split; [exact E|].
    rewrite E. rewrite <- (Qplus_0_r y) at 2.
    apply Qplus_lt_r. reflexivity.
Qed.

(** *** The transformation built by effect *)

(** C2.  The transformation handed to [parse_root] is the translation
    by the offsets, then the scale by the scaling factor, then, for the
    center origin and for no other, the translation by [(-w/2, h/2)];
    the top-left and bottom-left origins add nothing.  For the center
    origin with zero offsets and a scale of one it maps [(w/2, 0)] to
    [(0, h/2)]. *)
Theorem forward_chain opts :
  let w := bed_width opts in
  let h := bed_height opts in
  let offset := Translate (horizontal_offset opts) (vertical_offset opts) in
  let scale := Scale (scaling_factor opts) (scaling_factor opts) in
  forward_transformation opts =
    [offset; scale] ++
    (if String.eqb (machine_origin opts) "center"
     then [Translate (- w / 2) (h / 2)] else []) /\
  forward_transformation (with_origin "center" opts) =
    [offset; scale; Translate (- w / 2) (h / 2)] /\
  forward_transformation (with_origin "top-left" opts) = [offset; scale] /\
  forward_transformation (with_origin "bottom-left" opts) = [offset; scale] /\
  (machine_origin opts = "center"%string ->
   horizontal_offset opts == 0 -> vertical_offset opts == 0 ->
   scaling_factor opts == 1 ->
   Point_eq (apply (forward_transformation opts) (w / 2, 0)) (0, h / 2)).
Proof.
  cbv zeta. split; [|split; [|split; [|split]]]; try reflexivity.
  - unfold forward_transformation.
    destruct (String.eqb (machine_origin opts) "center"); reflexivity.
  - intros Ho Hx Hy Hs. unfold forward_transformation. rewrite Ho.
    split; simpl.
    + rewrite Hx, Hs. field.
    + rewrite Hy, Hs. field.
Qed.

(** With zero offsets and a scale of one the image of [(w/2, 0)] is the
    same when the operations are run newest first. *)
Lemma forward_chain_either_way opts :
  machine_origin opts = "center"%string ->
  horizontal_offset opts == 0 -> vertical_offset opts == 0 ->
  scaling_factor opts == 1 ->
  Point_eq (fold_right (fun op p => apply_op p op)
                       (bed_width opts / 2, 0)
                       (forward_transformation opts))
           (0, bed_height opts / 2).
Proof.
  intros Ho Hx Hy Hs. unfold forward_transformation. rewrite Ho.
  split; simpl.
  - rewrite Hx, Hs. field.
  - rewrite Hy, Hs. field.
Qed.

(** *** An origin that is none of the three *)

Lemma unrecognized_eqb origin :
  ~ recognized origin ->
  String.eqb origin "top-left" = false /\
  String.eqb origin "center" = false /\
  String.eqb "bottom-left" origin = false /\
  String.eqb "top-left" origin = false /\
  String.eqb "center" origin = false.
Proof.
  unfold recognized. intros H.
  repeat split; apply String.eqb_neq; intros E; apply H; subst; auto.
Qed.

(** C4, as the code has it.  With an origin that is none of top-left,
    bottom-left and center, the transformation handed to [parse_root],
    the flag [transform_origin] and the transformation of the traces
    are those of bottom-left, silently; only the label lookup of the
    reference markers raises (KeyError).  So the pass raises when debug
    drawing is on, and when it is off it runs exactly as for
    bottom-left. *)
Theorem unrecognized_origin opts root :
  ~ recognized (machine_origin opts) ->
  forward_transformation opts =
    forward_transformation (with_origin "bottom-left" opts) /\
  transform_origin opts = transform_origin (with_origin "bottom-left" opts) /\
  (forall canvas_height w h,
     change_origin (machine_origin opts) canvas_height w h =
     change_origin "bottom-left" canvas_height w h) /\
  references opts root = Raise (KeyError (machine_origin opts)) /\
  (draw_debug opts = true -> raises (pass opts root)) /\
  (draw_debug opts = false ->
     pass opts root = pass (with_origin "bottom-left" opts) root).
Proof.
  intros H. destruct (unrecognized_eqb _ H) as (E1 & E2 & E3 & E4 & E5).
  assert (Hf : forward_transformation opts =
               forward_transformation (with_origin "bottom-left" opts)).
  { unfold forward_transformation. simpl. now rewrite E2. }
  assert (Ht : transform_origin opts =
               transform_origin (with_origin "bottom-left" opts)).
  { unfold transform_origin. simpl. now rewrite E1. }
  assert (Hr : forall r, references opts r = Raise (KeyError (machine_origin opts))).
  { intros r. unfold draw_unit_reference, reference_points_gcode,
      reference_points_gcode_dict. cbn [dict_get].
    now rewrite E3, E4, E5. }
  repeat split; auto.
  - intros c w h. unfold change_origin. now rewrite E1, E2.
  - intros Hd. unfold effect. rewrite clear_debug_removes_first.
    cbn [bind].
    destruct (parse_root _ _ _) as [curves|e]; [|now exists e].
    cbn [bind].
    destruct (compile_to_file _ _ _ _ _ _ _ _) as [u|e]; [|now exists e].
    cbn [bind]. rewrite Hd.
    destruct (traces opts curves _) as [r|e]; [|now exists e].
    cbn [bind]. rewrite Hr. eexists. reflexivity.
  - intros Hd. unfold effect. rewrite <- Hf, <- Ht. simpl.
    now rewrite Hd.
Qed.

(** *** Running the pass again *)

Lemma reference_loop_keeps unit labels points : forall i group group',
  reference_loop str_num unit labels i points group = Ok group' ->
  tag group' = tag group /\ attrib group' = attrib group.
Proof.
  induction points as [|[x y] points IH]; intros i group group'; simpl.
  - intros [= <-]. auto.
  - destruct (reference_point str_num unit labels i x y) as [marker|];
      [|discriminate].
    cbn [bind]. intros H. apply IH in H. exact H.
Qed.

Lemma remove_first_app p l l' :
  filter p l = [] -> remove_first p (l ++ l') = l ++ remove_first p l'.
Proof.
  induction l as [|c r IH]; simpl; auto.
  destruct (p c); [discriminate|]. intros H. now rewrite IH.
Qed.

(** What a pass with debug drawing returns, when it returns: the
    cleared document followed by a traces group and a references group. *)
Lemma pass_shape opts cleared generated :
  draw_debug opts = true ->
  (curves <- parse_root cleared (transform_origin opts)
                        (forward_transformation opts) ;;
   _ <- compile_to_file (laser_command opts) (laser_power_range opts)
                        (travel_speed opts) (cutting_speed opts)
                        (pass_depth opts) (opt_unit opts) curves
                        (passes opts) ;;
   if draw_debug opts then
     root <- traces opts curves cleared ;; references opts root
   else Ok cleared) = Ok generated ->
  exists traces_layer references_layer,
    generated =
      with_children cleared (children cleared ++ [traces_layer; references_layer]) /\
    is_group_with_id "debug_traces" traces_layer = true /\
    is_group_with_id "debug_references" references_layer = true.
Proof.
  intros Hd. rewrite Hd.
  destruct (parse_root _ _ _) as [curves|]; [|discriminate]. cbn [bind].
  destruct (compile_to_file _ _ _ _ _ _ _ _) as [u|]; [|discriminate].
  cbn [bind]. unfold draw_debug_traces.
  destruct (canvas_height_of float cleared) as [c|]; [|discriminate].
  cbn [bind]. unfold draw_unit_reference.
  destruct (reference_points_gcode _ _ _) as [labels|]; [|discriminate].
  cbn [bind].
  destruct (reference_loop _ _ _ _ _ _) as [group|] eqn:Hl; [|discriminate].
  cbn [bind]. intros [= <-].
  apply reference_loop_keeps in Hl as [Hg Ha].
  exists (traces_group opts c curves), group. repeat split.
  - destruct cleared. unfold with_children, append. simpl.
    now rewrite <- app_assoc.
  - now rewrite traces_group_shape.
  - unfold is_group_with_id, get. now rewrite Hg, Ha.
Qed.

(** C5, as the code has it.  With debug drawing on, on a document whose
    root has at most one traces group and at most one references group
    among its children: when the pass returns a document, that document
    has exactly one group of each kind, and the pass run on it again
    returns, without an error, the very same document. *)
Theorem regeneration opts root generated :
  draw_debug opts = true ->
  (overlay_count "debug_traces" root <= 1)%nat ->
  (overlay_count "debug_references" root <= 1)%nat ->
  pass opts root = Ok generated ->
  pass opts generated = Ok generated /\
  overlay_count "debug_traces" generated = 1%nat /\
  overlay_count "debug_references" generated = 1%nat.
Proof.
  intros Hd Ht Hr Hp.
  destruct (clear_debug_leaves_none root Ht Hr) as (rest & Hc & Ft & Fr).
  unfold effect in Hp. rewrite Hc in Hp. cbn [bind] in Hp.
  destruct (pass_shape _ _ _ Hd Hp) as (T & R & Hg & HT & HR).
  simpl in Hg.
  assert (Hclear : clear_debug generated = Ok (with_children root rest)).
  { rewrite clear_debug_removes_first. subst generated. simpl.
    rewrite (remove_first_app _ _ _ Ft). simpl. rewrite HT.
    rewrite (remove_first_app _ _ _ Fr). simpl. rewrite HR.
    now rewrite app_nil_r. }
  split.
  - unfold effect. rewrite Hclear. cbn [bind]. exact Hp.
  - unfold overlay_count. subst generated. simpl.
    rewrite !filter_app, Ft, Fr. simpl.
    rewrite HT, HR, (traces_not_references _ HT),
      (references_not_traces _ HR).
    split; reflexivity.
Qed.
End Properties.

(** ** The statements on the sample page *)

Lemma canvas_height_from_attribute_witness :
  (solely_digits "100mm" ->
     canvas_height_of sample_float sample_document =
     float_or_raise sample_float "100mm") /\
  (~ solely_digits "100mm" ->
     canvas_height_of sample_float sample_document =
     float_or_raise sample_float (drop_last_two "100mm")) /\
  (forall p a b, "100mm"%string = (p ++ String a (String b ""))%string ->
     drop_last_two "100mm" = p) /\
  ("100mm"%string = "297.5"%string ->
     canvas_height_of sample_float sample_document =
     float_or_raise sample_float "297") /\
  (~ solely_digits "100mm" -> sample_float (drop_last_two "100mm") = None ->
     forall opts curves,
       raises (sample_draw_debug_traces opts curves sample_document)).
Proof.
  apply (canvas_height_from_attribute (list Point) (list Point) sample_float
           (fun c => c) sample_arrow_defs sample_to_svg_path
           sample_document "100mm").
  reflexivity.
Defined.

Lemma no_curve_no_path_witness :
  exists group,
    sample_draw_debug_traces (sample_options "bottom-left" true) []
                             sample_document =
      Ok (append group sample_document) /\
    children (append group sample_document) =
      children sample_document ++ [group] /\
    is_group_with_id "debug_traces" group = true /\
    children group = [sample_arrow_defs] /\
    path_children group = [].
Proof.
  apply (no_curve_no_path (list Point) (list Point) sample_float
           (fun c => c) sample_arrow_defs sample_to_svg_path
           (sample_options "bottom-left" true) sample_document 100);
    reflexivity.
Defined.

Lemma forward_chain_witness :
  Point_eq (apply (forward_transformation (sample_options "center" true))
                  (200 / 2, 0))
           (0, 100 / 2).
Proof.
  apply (forward_chain (sample_options "center" true)); reflexivity.
Defined.

Lemma crosshair_directions_witness :
  x_direction 0 = 1 /\ y_direction 100 = - (1).
Proof.
  apply (crosshair_directions sample_str_num 0 100). reflexivity.
Defined.

Lemma label_height_witness :
  text_y 100 == 100 + 9 /\ below_in_document (text_y 100) 100.
Proof.
  apply (label_height sample_str_num 0 100 "mm" (0, 0)). reflexivity.
Defined.

Lemma corner_labels_witness :
  exists root',
    draw_unit_reference sample_str_num (sample_options "bottom-left" true)
                        sample_document = Ok root' /\
    last_group_labels root' =
      [Some "0/1mm, 100/1mm"; Some "0/1mm, 0/1mm";
       Some "200/1mm, 100/1mm"; Some "200/1mm, 0/1mm"]%string.
Proof.
  destruct (corner_labels sample_str_num (sample_options "bottom-left" true)
              sample_document) as (_ & _ & _ & _ & H).
  apply (H [(0, 100); (0, 0); (200, 100); (200, 0)]). reflexivity.
Defined.

Lemma not_recognized_top_right : ~ recognized "top-right".
Proof. intros [H|[H|H]]; discriminate H. Qed.

Lemma unrecognized_origin_witness :
  draw_unit_reference sample_str_num (sample_options "top-right" true)
                      sample_document = Raise (KeyError "top-right") /\
  raises (sample_effect (sample_options "top-right" true) sample_document).
Proof.
  destruct (unrecognized_origin (list Point) (list Point) sample_str_num
              sample_float sample_parse_root sample_compile_to_file
              (fun c => c) sample_arrow_defs sample_to_svg_path
              (sample_options "top-right" true) sample_document
              not_recognized_top_right)
    as (_ & _ & _ & Hk & Hr & _).
  split; [exact Hk | exact (Hr eq_refl)].
Defined.

(** C4, as it is stated, fails with debug drawing off: the pass returns
    the document although the origin is none of the three. *)
Lemma unrecognized_origin_counterexample :
  ~ recognized "top-right" /\
  sample_effect (sample_options "top-right" false) sample_document =
    Ok sample_document /\
  ~ raises (sample_effect (sample_options "top-right" false) sample_document).
Proof.
  split; [exact not_recognized_top_right|].
  assert (H : sample_effect (sample_options "top-right" false) sample_document
              = Ok sample_document) by reflexivity.
  split; [exact H|]. rewrite H. intros [e He]. discriminate He.
Qed.

Lemma regeneration_witness :
  sample_effect (sample_options "center" true) sample_generated =
    Ok sample_generated /\
  overlay_count "debug_traces" sample_generated = 1%nat /\
  overlay_count "debug_references" sample_generated = 1%nat.
Proof.
  apply (regeneration (list Point) (list Point) sample_str_num sample_float
           sample_parse_root sample_compile_to_file (fun c => c)
           sample_arrow_defs sample_to_svg_path
           (sample_options "center" true) sample_document sample_generated).
  - reflexivity.
  - vm_compute; lia.
  - vm_compute; lia.
  - vm_compute; reflexivity.
Defined.

(** C5, as it is stated, fails on a page that already holds two traces
    groups: each pass removes one of them only, so that two passes leave
    two traces groups and two different documents. *)
Lemma regeneration_counterexample :
  exists first second,
    sample_effect (sample_options "bottom-left" true) twice_pasted_document =
      Ok first /\
    sample_effect (sample_options "bottom-left" true) first = Ok second /\
    overlay_count "debug_traces" first = 2%nat /\
    overlay_count "debug_traces" second = 2%nat /\
    first <> second.
Proof.
  eexists. eexists. split; [vm_compute; reflexivity|].
  split; [vm_compute; reflexivity|].
  split; [reflexivity|]. split; [reflexivity|]. discriminate.
Qed.

(** C8, as it is stated, fails at the corner height 100, whose label is
    not put above it, and at the corner height 0, whose label is not put
    below it. *)
Lemma label_height_counterexample :
  0 < 100 /\ ~ above_in_document (text_y 100) 100 /\
  0 <= 0 /\ ~ below_in_document (text_y 0) 0.
Proof.
  unfold above_in_document, below_in_document.
  repeat split; try discriminate; intros H; discriminate H.
Qed.

(** * The rest of the extension *)

(** ** The laser power command *)

Lemma less_true a b : a < b -> less a b = true.
Proof.
  intros H. unfold less. destruct (Qle_bool b a) eqn:E; auto.
  apply Qle_bool_iff in E. exfalso. exact (Qlt_not_le _ _ H E).
Qed.

Lemma less_false a b : b <= a -> less a b = false.
Proof.
  intros H. unfold less. apply Qle_bool_iff in H. now rewrite H.
Qed.

(** A power between 0 and 1, both included, gives the command followed
    by [S] and the mapped power; any other power raises ValueError. *)
Theorem set_laser_power_bounds str_num linear_map laser_command range power :
  (0 <= power -> power <= 1 ->
   set_laser_power str_num linear_map laser_command range power =
   Ok (laser_command ++ " S" ++
       str_num (linear_map 0 (inject_Z range) power) ++ ";")%string) /\
  (power < 0 \/ 1 < power ->
   exists message,
     set_laser_power str_num linear_map laser_command range power =
     Raise (ValueError message)).
Proof.
  unfold set_laser_power. split.
  - intros H0 H1. now rewrite (less_false _ _ H0), (less_false _ _ H1).
  - intros [H|H].
    + rewrite (less_true _ _ H). simpl. eexists. reflexivity.
    + rewrite (less_true _ _ H), orb_true_r. eexists. reflexivity.
Qed.

(** Switching the laser off never raises, whatever the command and the
    power range. *)
Theorem laser_off_never_raises str_num linear_map laser_command range :
  laser_off str_num linear_map laser_command range =
  Ok (laser_command ++ " S" ++
      str_num (linear_map 0 (inject_Z range) 0) ++ ";")%string.
Proof. reflexivity. Qed.

(** ** The tolerance string *)

(** The literal handed to [float] has no comma and the length of the
    string typed; a string without a comma is handed over as it is. *)
Theorem replace_comma s :
  count_char "," (replace "," "." s) = 0%nat /\
  String.length (replace "," "." s) = String.length s /\
  (count_char "," s = 0%nat -> replace "," "." s = s).
Proof.
  induction s as [|c s (IH1 & IH2 & IH3)]; simpl; [auto|].
  destruct (Ascii.eqb c ",") eqn:E; simpl.
  - rewrite IH1, IH2. repeat split. discriminate.
  - rewrite E, IH1, IH2. repeat split. intros H. now rewrite (IH3 H).
Qed.

(** ** Splitting the output path *)

Lemma str_split_cons sep s : exists piece pieces,
  str_split sep s = piece :: pieces.
Proof.
  destruct s as [|c r]; simpl; [now eexists; eexists|].
  destruct (Ascii.eqb c sep); [now eexists; eexists|].
  destruct (str_split sep r); now eexists; eexists.
Qed.

(** Splitting gives one piece more than there are separators, and
    joining the pieces with the separator gives the string back. *)
Theorem str_split_join sep s :
  List.length (str_split sep s) = S (count_char sep s) /\
  concat (String sep "") (str_split sep s) = s.
Proof.
  induction s as [|c r [IHl IHc]]; simpl; [auto|].
  destruct (Ascii.eqb c sep) eqn:E.
  - apply Ascii.eqb_eq in E. subst c. simpl. rewrite IHl. split; [reflexivity|].
    destruct (str_split sep r) as [|p ps] eqn:Er; [discriminate|].
    simpl in *. destruct ps; simpl in *; now rewrite IHc.
  - destruct (str_split sep r) as [|p ps] eqn:Er; [discriminate|].
    simpl in *. split; [exact IHl|].
    destruct ps; simpl in *; now rewrite <- IHc.
Qed.

Lemma unpack_two_ok sep s :
  count_char sep s = 1%nat ->
  exists a b, unpack_two (str_split sep s) = Ok (a, b) /\
              s = (a ++ String sep b)%string.
Proof.
  intros H. destruct (str_split_join sep s) as [Hl Hc]. rewrite H in Hl.
  destruct (str_split sep s) as [|a [|b [|c r]]]; try discriminate.
  exists a, b. split; [reflexivity|]. simpl in Hc. now rewrite <- Hc.
Qed.

Lemma unpack_two_raises sep s :
  count_char sep s <> 1%nat ->
  exists message, unpack_two (str_split sep s) = Raise (ValueError message).
Proof.
  intros H. destruct (str_split_join sep s) as [Hl _].
  destruct (str_split sep s) as [|a [|b [|c r]]]; simpl in *;
    try (eexists; reflexivity).
  congruence.
Qed.

(** ** The numbered output path *)

Lemma append_cancel_l p a b : (p ++ a)%string = (p ++ b)%string -> a = b.
Proof.
  induction p as [|c p IH]; simpl; auto. intros [= H]. auto.
Qed.

Lemma append_cancel_r s : forall a b,
  (a ++ s)%string = (b ++ s)%string -> a = b.
Proof.
  induction a as [|c a IH]; intros [|d b] H; simpl in H; auto.
  - apply (f_equal String.length) in H. simpl in H.
    rewrite length_append in H. lia.
  - apply (f_equal String.length) in H. simpl in H.
    rewrite length_append in H. lia.
  - injection H as -> H. f_equal. auto.
Qed.

Lemma str_int_inj n m : str_int n = str_int m -> n = m.
Proof.
  unfold str_int. intros H. apply Unsigned.to_uint_inj.
  apply (f_equal NilEmpty.uint_of_string) in H.
  rewrite !NilEmpty.usu in H. congruence.
Qed.

(** Two counters give two names. *)
Lemma numbered_inj filename extension n m :
  numbered filename extension n = numbered filename extension m -> n = m.
Proof.
  unfold numbered. intros H. apply append_cancel_l in H.
  apply append_cancel_r in H. now apply str_int_inj.
Qed.

Lemma forallb_false {A} (f : A -> bool) l :
  forallb f l = false -> exists x, In x l /\ f x = false.
Proof.
  induction l as [|a l IH]; simpl; [discriminate|].
  destruct (f a) eqn:E; simpl.
  - intros H. destruct (IH H) as (x & Hx & Hf). exists x. auto.
  - intros _. exists a. auto.
Qed.

(** A directory listing of [k] files leaves one of the first [k + 1]
    numbered names free. *)
Lemma some_number_free files filename extension :
  exists n, (1 <= n <= S (List.length files))%nat /\
            listed files (numbered filename extension n) = false.
Proof.
  set (names := map (numbered filename extension)
                    (seq 1 (S (List.length files)))).
  destruct (forallb (listed files) names) eqn:E.
  - exfalso.
    assert (Hn : NoDup names).
    { apply Injective_map_NoDup; [|apply seq_NoDup].
      intros a b. apply numbered_inj. }
    assert (Hi : incl names files).
    { intros x Hx. rewrite forallb_forall in E. specialize (E x Hx).
      unfold listed in E. apply existsb_exists in E as (y & Hy & He).
      apply String.eqb_eq in He. now subst. }
    pose proof (NoDup_incl_length Hn Hi) as Hl.
    unfold names in Hl. rewrite length_map, length_seq in Hl. lia.
  - apply forallb_false in E as (x & Hx & Hf).
    apply in_map_iff in Hx as (n & <- & Hn). apply in_seq in Hn.
    exists n. split; [lia | exact Hf].
Qed.

Section OutputPathProperties.

Variable os_path_join : string -> string -> string.
Variable isfile : string -> bool.

(** Where the loop stops there is no file, and the name is either the one
    it started from or the first free numbered name. *)
Lemma suffix_loop_stops filename extension : forall fuel n start path,
  suffix_loop isfile fuel filename extension n start = Some path ->
  isfile path = false /\
  (path = start \/
   exists m, (n <= m)%nat /\ path = numbered filename extension m /\
             isfile start = true /\
             forall j, (n <= j < m)%nat ->
                       isfile (numbered filename extension j) = true).
Proof.
  induction fuel as [|fuel IH]; intros n start path; simpl;
    destruct (isfile start) eqn:E; try discriminate.
  - intros [= <-]. auto.
  - intros H. apply IH in H as [Hf [->|(m & Hm & -> & Hs & Hj)]].
    + split; [exact Hf|]. right. exists n. repeat split; auto. lia.
    + split; [exact Hf|]. right. exists m. repeat split; auto; [lia|].
      intros j Hj'. destruct (Nat.eq_dec j n) as [->|Hne]; auto.
      apply Hj. lia.
  - intros [= <-]. auto.
Qed.

(** The loop ends as soon as the fuel reaches a free numbered name. *)
Lemma suffix_loop_ends filename extension : forall fuel n start m,
  (n <= m < n + fuel)%nat ->
  isfile (numbered filename extension m) = false ->
  exists path, suffix_loop isfile fuel filename extension n start = Some path.
Proof.
  induction fuel as [|fuel IH]; intros n start m Hm Hf; [lia|].
  simpl. destruct (isfile start); [|now eexists].
  destruct (Nat.eq_dec m n) as [->|Hne].
  - destruct fuel; simpl; rewrite Hf; now eexists.
  - apply (IH (S n) _ m); [lia | exact Hf].
Qed.

(** With the suffix option on, a joined path that does not hold exactly
    one dot makes the pass raise ValueError, whether or not the file
    exists. *)
Theorem output_path_needs_one_dot directory filename fuel :
  count_char "." (os_path_join directory filename) <> 1%nat ->
  exists message,
    output_path os_path_join isfile directory filename true fuel =
    Raise (ValueError message).
Proof.
  intros H. unfold output_path.
  destruct (unpack_two_raises "." _ H) as [message ->].
  exists message. reflexivity.
Qed.

(** With the suffix option on, the path the loop settles on is never an
    existing file: it is the joined path when that is free, and otherwise
    the stem followed by the least number from 1 on whose name is free,
    a dot and the extension. *)
Theorem output_path_is_free directory filename fuel path :
  output_path os_path_join isfile directory filename true fuel =
    Ok (Some path) ->
  isfile path = false /\
  (path = os_path_join directory filename \/
   exists stem extension n,
     os_path_join directory filename = (stem ++ "." ++ extension)%string /\
     (1 <= n)%nat /\ path = numbered stem extension n /\
     isfile (os_path_join directory filename) = true /\
     forall j, (1 <= j < n)%nat ->
               isfile (numbered stem extension j) = true).
Proof.
  unfold output_path.
  destruct (Nat.eq_dec (count_char "." (os_path_join directory filename)) 1)
    as [H1|H1].
  - destruct (unpack_two_ok "." _ H1) as (stem & extension & -> & Hs).
    cbn [bind]. intros [= H].
    apply suffix_loop_stops in H as [Hf [->|(m & Hm & -> & Hi & Hj)]].
    + auto.
    + split; [exact Hf|]. right. exists stem, extension, m. auto.
  - destruct (unpack_two_raises "." _ H1) as [message ->]. discriminate.
Qed.

End OutputPathProperties.

(** In a directory of finitely many files the loop ends: with one dot in
    the joined path and more turns than there are files, a free path is
    found. *)
Theorem output_path_found os_path_join files directory filename fuel :
  count_char "." (os_path_join directory filename) = 1%nat ->
  (List.length files < fuel)%nat ->
  exists path,
    output_path os_path_join (listed files) directory filename true fuel =
      Ok (Some path) /\
    listed files path = false.
Proof.
  intros H1 Hfuel. unfold output_path.
  destruct (unpack_two_ok "." _ H1) as (stem & extension & -> & Hs).
  cbn [bind].
  destruct (some_number_free files stem extension) as (n & Hn & Hf).
  destruct (suffix_loop_ends (listed files) stem extension fuel 1
              (os_path_join directory filename) n) as [path Hp];
    [lia | exact Hf |].
  exists path. split; [now rewrite Hp|].
  now apply suffix_loop_stops in Hp as [Hfree _].
Qed.

(** Without the suffix option the joined path is used as it is, even
    when a file is already there. *)
Theorem output_path_without_suffix os_path_join isfile directory filename fuel :
  isfile (os_path_join directory filename) = true ->
  output_path os_path_join isfile directory filename false fuel =
  Ok (Some (os_path_join directory filename)) /\
  (count_char "." (os_path_join directory filename) = 1%nat ->
   (0 < fuel)%nat ->
   output_path os_path_join isfile directory filename true fuel <>
   Ok (Some (os_path_join directory filename))).
Proof.
  intros Hf. split; [reflexivity|]. intros H1 Hfuel H.
  unfold output_path in H.
  destruct (unpack_two_ok "." _ H1) as (stem & extension & E & _).
  rewrite E in H. cbn [bind] in H. injection H as H.
  apply suffix_loop_stops in H as [Hfree _]. congruence.
Qed.

(** ** Reading the arguments off the inx file *)

Lemma item_lookup key d :
  (forall v, item key d = Read v <-> lookup key d = Some v) /\
  (lookup key d = None -> item key d = Stop (InxKeyError key)).
Proof.
  induction d as [|[k v] d [IH1 IH2]]; simpl.
  - split; [split; discriminate | reflexivity].
  - destruct (String.eqb k key); [|auto].
    split; [|discriminate]. intros w. split; intros [= ->]; reflexivity.
Qed.

Lemma item_stop {V} key (d : list (string * V)) e :
  item key d = Stop e -> e = InxKeyError key.
Proof.
  induction d as [|[k v] d IH]; simpl.
  - now intros [= <-].
  - destruct (String.eqb k key); [discriminate | exact IH].
Qed.

Lemma read_params_reads : forall params arguments result,
  read_params params arguments = Read result ->
  exists added,
    result = arguments ++ added /\
    Forall2 argument_of (filter makes_argument params) added.
Proof.
  induction params as [|arg rest IH]; intros arguments result;
    cbn [read_params filter].
  - intros [= <-]. exists []. now rewrite app_nil_r.
  - unfold makes_argument at 1.
    destruct (item "name" (attrib arg)) as [name|] eqn:En; [|discriminate].
    destruct (item "type" (attrib arg)) as [ty|] eqn:Et; [|discriminate].
    apply item_lookup in En, Et. rewrite Et.
    destruct (skipped ty); cbn [negb].
    + apply IH.
    + destruct (item ty types) as [t|] eqn:Ek; [|discriminate].
      intros H. apply IH in H as (added & -> & Hf).
      exists (mkArgument name t :: added). split.
      * now rewrite <- app_assoc.
      * constructor; [|exact Hf]. split; [exact En|]. now exists ty.
Qed.

Lemma read_params_stop : forall params arguments e,
  read_params params arguments = Stop e -> exists key, e = InxKeyError key.
Proof.
  induction params as [|arg rest IH]; intros arguments e;
    cbn [read_params]; [discriminate|].
  destruct (item "name" (attrib arg)) as [name|] eqn:En;
    [|intros [= <-]; eexists; exact (item_stop _ _ _ En)].
  destruct (item "type" (attrib arg)) as [ty|] eqn:Et;
    [|intros [= <-]; eexists; exact (item_stop _ _ _ Et)].
  destruct (skipped ty); [apply IH|].
  destruct (item ty types) as [t|] eqn:Ek;
    [apply IH | intros [= <-]; eexists; exact (item_stop _ _ _ Ek)].
Qed.

Lemma item_types_none ty :
  ~ In ty (map fst types) -> item ty types = Stop (InxKeyError ty).
Proof.
  intros H. unfold types. cbn [item].
  repeat (match goal with
          | |- context [String.eqb ?k ty] =>
              let E := fresh "E" in
              destruct (String.eqb k ty) eqn:E;
              [exfalso; apply H; apply String.eqb_eq in E; subst ty;
               simpl; auto 8|]
          end).
  reflexivity.
Qed.

Lemma item_types_some ty :
  In ty (map fst types) -> exists t, item ty types = Read t.
Proof.
  simpl. intros [<-|[<-|[<-|[<-|[<-|[<-|[]]]]]]]; eexists; reflexivity.
Qed.

Lemma read_params_ill_formed : forall params arguments arg,
  In arg params -> ill_formed arg ->
  exists key, read_params params arguments = Stop (InxKeyError key).
Proof.
  induction params as [|first rest IH]; intros arguments arg;
    cbn [read_params In]; [contradiction|].
  intros Hin Hill.
  destruct (item "name" (attrib first)) as [name|] eqn:En;
    [|eexists; f_equal; exact (item_stop _ _ _ En)].
  destruct (item "type" (attrib first)) as [ty|] eqn:Et;
    [|eexists; f_equal; exact (item_stop _ _ _ Et)].
  apply item_lookup in En, Et.
  destruct Hin as [->|Hin].
  - destruct Hill as [H|[H|(ty' & H & Hs & Hk)]]; try congruence.
    assert (ty' = ty) by congruence. subst ty'. rewrite Hs.
    rewrite (item_types_none _ Hk). now eexists.
  - destruct (skipped ty); [now apply (IH _ arg)|].
    destruct (item ty types) as [t|] eqn:Ek;
      [now apply (IH _ arg) | eexists; f_equal; exact (item_stop _ _ _ Ek)].
Qed.

(** When [read_arguments] returns, it returns one argument for each
    [param] element of the file whose type is neither description nor
    notebook, in the order of the file, each with the name of its element
    and the Python type of its inx type, and after them the argument
    [tabs] of type str. *)
Theorem read_arguments_reads root arguments :
  read_arguments root = Read arguments ->
  exists read,
    arguments = read ++ [mkArgument "tabs" py_str] /\
    Forall2 argument_of
      (filter makes_argument (iter root (qname inx_namespace "param")))
      read.
Proof.
  unfold read_arguments.
  destruct (read_params _ _) as [read|] eqn:E; [|discriminate].
  destruct (iter root (qname inx_namespace "page")); [discriminate|].
  intros [= <-]. apply read_params_reads in E as (added & -> & Hf).
  exists added. auto.
Qed.

(** An inx file without a [page] element makes [read_arguments] raise:
    StopIteration when every [param] element could be read, and the
    KeyError of the first one that could not otherwise. *)
Theorem read_arguments_without_page root :
  iter root (qname inx_namespace "page") = [] ->
  (forall arguments, read_arguments root <> Read arguments) /\
  (forall read,
     read_params (iter root (qname inx_namespace "param")) [] = Read read ->
     read_arguments root = Stop StopIteration).
Proof.
  intros Hp. unfold read_arguments. rewrite Hp. split.
  - intros arguments. destruct (read_params _ _); discriminate.
  - intros read ->. reflexivity.
Qed.

(** A [param] element without a name, without a type, or with a type
    that is neither skipped nor one of int, float, boolean, string, enum
    and path makes [read_arguments] raise a KeyError, wherever the
    element sits in the file; a description without a name does, too. *)
Theorem read_arguments_ill_formed root arg :
  In arg (iter root (qname inx_namespace "param")) ->
  ill_formed arg ->
  exists key, read_arguments root = Stop (InxKeyError key).
Proof.
  intros Hin Hill. unfold read_arguments.
  destruct (read_params_ill_formed _ [] arg Hin Hill) as [key ->].
  now exists key.
Qed.

Lemma read_params_well_formed : forall params arguments,
  (forall arg, In arg params -> ~ ill_formed arg) ->
  exists result, read_params params arguments = Read result.
Proof.
  induction params as [|first rest IH]; intros arguments Hw;
    cbn [read_params]; [now eexists|].
  assert (Hf : ~ ill_formed first) by (apply Hw; now left).
  assert (Hr : forall arg, In arg rest -> ~ ill_formed arg)
    by (intros arg Ha; apply Hw; now right).
  destruct (lookup "name" (attrib first)) as [name|] eqn:En;
    [|exfalso; apply Hf; now left].
  destruct (lookup "type" (attrib first)) as [ty|] eqn:Et;
    [|exfalso; apply Hf; right; now left].
  apply item_lookup in En, Et. rewrite En, Et.
  destruct (skipped ty) eqn:Es; [now apply IH|].
  destruct (in_dec string_dec ty (map fst types)) as [Hk|Hk].
  - destruct (item_types_some _ Hk) as [t ->]. now apply IH.
  - exfalso. apply Hf. right. right. exists ty.
    apply item_lookup in Et. auto.
Qed.

(** With a [page] element in the file and no [param] element that is
    ill formed, [read_arguments] returns. *)
Theorem read_arguments_returns root :
  iter root (qname inx_namespace "page") <> [] ->
  (forall arg, In arg (iter root (qname inx_namespace "param")) ->
               ~ ill_formed arg) ->
  exists arguments, read_arguments root = Read arguments.
Proof.
  intros Hp Hw. unfold read_arguments.
  destruct (read_params_well_formed _ [] Hw) as [read ->].
  destruct (iter root (qname inx_namespace "page")); [contradiction|].
  now eexists.
Qed.

(** ** More on the renderers and the pass *)

Lemma filter_remove_first_length p l :
  List.length (filter p (remove_first p l)) =
  Nat.pred (List.length (filter p l)).
Proof.
  induction l as [|c r IH]; simpl; auto.
  destruct (p c) eqn:Hp; simpl.
  - reflexivity.
  - now rewrite Hp.
Qed.

Lemma drawing_remove_first p l :
  (forall x, p x = true -> is_overlay x = true) ->
  filter (fun e => negb (is_overlay e)) (remove_first p l) =
  filter (fun e => negb (is_overlay e)) l.
Proof.
  intros Hp. induction l as [|c r IH]; simpl; auto.
  destruct (p c) eqn:E.
  - now rewrite (Hp c E).
  - simpl. now rewrite IH.
Qed.

Lemma traces_is_overlay x :
  is_group_with_id "debug_traces" x = true -> is_overlay x = true.
Proof. unfold is_overlay. now intros ->. Qed.

Lemma references_is_overlay x :
  is_group_with_id "debug_references" x = true -> is_overlay x = true.
Proof. unfold is_overlay. intros ->. apply orb_true_r. Qed.

Lemma clear_debug_keeps_drawing root cleared :
  clear_debug root = Ok cleared ->
  tag cleared = tag root /\ attrib cleared = attrib root /\
  text cleared = text root /\ drawing cleared = drawing root.
Proof.
  rewrite clear_debug_removes_first. intros [= <-].
  unfold drawing. simpl. repeat split.
  rewrite (drawing_remove_first _ _ references_is_overlay).
  apply (drawing_remove_first _ _ traces_is_overlay).
Qed.

Lemma clear_debug_counts root cleared :
  clear_debug root = Ok cleared ->
  overlay_count "debug_traces" cleared =
    Nat.pred (overlay_count "debug_traces" root) /\
  overlay_count "debug_references" cleared =
    Nat.pred (overlay_count "debug_references" root).
Proof.
  rewrite clear_debug_removes_first. intros [= <-].
  unfold overlay_count. simpl. split.
  - rewrite (filter_remove_first_other _ _ _ references_not_traces).
    apply filter_remove_first_length.
  - rewrite filter_remove_first_length.
    now rewrite (filter_remove_first_other _ _ _ traces_not_references).
Qed.

(** On every document [clear_debug] returns: the root keeps its tag, its
    attributes, its text and its drawing, and loses one traces group and
    one references group where it had any. *)
Theorem clear_debug_removes_one_each root :
  exists cleared,
    clear_debug root = Ok cleared /\
    tag cleared = tag root /\ attrib cleared = attrib root /\
    text cleared = text root /\
    drawing cleared = drawing root /\
    overlay_count "debug_traces" cleared =
      Nat.pred (overlay_count "debug_traces" root) /\
    overlay_count "debug_references" cleared =
      Nat.pred (overlay_count "debug_references" root).
Proof.
  pose proof (clear_debug_removes_first root) as H.
  eexists. split; [exact H|].
  destruct (clear_debug_keeps_drawing _ _ H) as (Ht & Ha & Hx & Hd).
  destruct (clear_debug_counts _ _ H) as (Nt & Nr).
  repeat split; assumption.
Qed.

Section MoreProperties.

Variable Curve : Type.
Variable LineSegmentChain : Type.
Variable str_num : Q -> string.
Variable float : string -> option Q.
Variable parse_root : Element -> bool -> Transformation -> res (list Curve).
Variable compile_to_file :
  string -> Z -> Q -> Q -> Q -> string -> list Curve -> Z -> res unit.
Variable line_segment_approximation : Curve -> LineSegmentChain.
Variable arrow_defs : Element.
Variable to_svg_path :
  LineSegmentChain -> string -> string -> Transformation -> bool -> Element.

Local Abbreviation traces :=
  (draw_debug_traces float line_segment_approximation arrow_defs to_svg_path).
Local Abbreviation references := (draw_unit_reference str_num).
Local Abbreviation pass :=
  (effect str_num float parse_root compile_to_file
          line_segment_approximation arrow_defs to_svg_path).

(** *** The reference markers *)

Lemma recognized_labels origin w h :
  recognized origin ->
  exists a b c d, reference_points_gcode origin w h = Ok [a; b; c; d].
Proof.
  intros [-> | [-> | ->]]; do 4 eexists; reflexivity.
Qed.

(** The reference markers are drawn exactly for the three origins: then
    the document gets one more child, after those it had, the references
    group with four markers; for any other origin the renderer raises
    KeyError, and it raises nothing else. *)
Theorem draw_unit_reference_recognized opts root :
  (recognized (machine_origin opts) ->
   exists group,
     references opts root = Ok (append group root) /\
     is_group_with_id "debug_references" group = true /\
     List.length (children group) = 4%nat) /\
  (~ recognized (machine_origin opts) ->
   references opts root = Raise (KeyError (machine_origin opts))) /\
  (forall e, references opts root = Raise e ->
             ~ recognized (machine_origin opts) /\
             e = KeyError (machine_origin opts)).
Proof.
  split; [|split].
  - intros H. unfold draw_unit_reference.
    destruct (recognized_labels _ (bed_width opts) (bed_height opts) H)
      as (a & b & c & d & ->).
    eexists. split; [reflexivity|]. split; reflexivity.
  - intros H. destruct (unrecognized_eqb _ H) as (_ & _ & E3 & E4 & E5).
    unfold draw_unit_reference, reference_points_gcode,
      reference_points_gcode_dict. cbn [dict_get].
    now rewrite E3, E4, E5.
  - intros e He. split.
    + intros H. unfold draw_unit_reference in He.
      destruct (recognized_labels _ (bed_width opts) (bed_height opts) H)
        as (a & b & c & d & Hl).
      rewrite Hl in He. discriminate He.
    + unfold draw_unit_reference, reference_points_gcode,
        reference_points_gcode_dict in He. cbn [dict_get] in He.
      destruct (String.eqb "bottom-left" (machine_origin opts));
        [discriminate He|].
      destruct (String.eqb "top-left" (machine_origin opts));
        [discriminate He|].
      destruct (String.eqb "center" (machine_origin opts));
        [discriminate He|].
      now injection He as <-.
Qed.

(** The three label tables follow the corners: for bottom-left the label
    of the corner [(x, y)] is [(x, h - y)], for top-left it is [(x, y)],
    and for center it is [(x - w/2, h/2 - y)]. *)
Theorem labels_follow_corners w h :
  let corners := reference_points_svg w h in
  (exists labels,
     reference_points_gcode "bottom-left" w h = Ok labels /\
     Forall2 (fun corner label =>
                Point_eq label (fst corner, h - snd corner))
             corners labels) /\
  (exists labels,
     reference_points_gcode "top-left" w h = Ok labels /\
     Forall2 (fun corner label => Point_eq label corner) corners labels) /\
  (exists labels,
     reference_points_gcode "center" w h = Ok labels /\
     Forall2 (fun corner label =>
                Point_eq label (fst corner - w / 2, h / 2 - snd corner))
             corners labels).
Proof.
  cbv zeta. unfold Point_eq.
  split; [|split]; eexists; (split; [reflexivity|]);
    repeat constructor; simpl; field.
Qed.

(** The four numbers of a crosshair.  The horizontal arm runs from one
    unit on the outer side of the corner to seven units on the inner
    side, so it always passes through the corner.  The vertical arm
    starts at [y + 1] whatever the direction: it passes through the
    corner when [y > 0] and starts one unit past it when [y <= 0]. *)
Theorem crosshair_arms x y :
  exists x1 x2 y1 y2,
    get (horizontal_line str_num x y) "x1" = Some (str_num x1) /\
    get (horizontal_line str_num x y) "x2" = Some (str_num x2) /\
    get (horizontal_line str_num x y) "y1" = Some (str_num y) /\
    get (horizontal_line str_num x y) "y2" = Some (str_num y) /\
    get (vertical_line str_num x y) "x1" = Some (str_num x) /\
    get (vertical_line str_num x y) "x2" = Some (str_num x) /\
    get (vertical_line str_num x y) "y1" = Some (str_num y1) /\
    get (vertical_line str_num x y) "y2" = Some (str_num y2) /\
    (0 < x -> x1 == x + 1 /\ x2 == x - 7) /\
    (x <= 0 -> x1 == x - 1 /\ x2 == x + 7) /\
    y1 == y + 1 /\
    (0 < y -> y2 == y - 7 /\ y2 < y /\ y < y1) /\
    (y <= 0 -> y2 == y + 7 /\ y < y1 /\ y < y2).
Proof.
  do 4 eexists. repeat (split; [reflexivity|]).
  unfold x_direction, y_direction, stroke_width, size.
  assert (L : forall a b : Q, 0 < b -> a < a + b).
  { intros a b Hb. rewrite <- (Qplus_0_r a) at 1.
    now apply Qplus_lt_r. }
  assert (M : forall a b : Q, 0 < b -> a - b < a).
  { intros a b Hb. apply Qlt_minus_iff.
    setoid_replace (a + - (a - b)) with b by ring. exact Hb. }
  split; [|split; [|split; [|split]]].
  - intros H. rewrite (gt0_true _ H). split; field.
  - intros H. rewrite (gt0_false _ H). split; field.
  - field.
  - intros H. rewrite (gt0_true _ H).
    setoid_replace (y + - (1) * 7) with (y - 7) by ring.
    setoid_replace (y + 2 / 2) with (y + 1) by field.
    split; [reflexivity|]. split; [apply M | apply L]; reflexivity.
  - intros H. rewrite (gt0_false _ H).
    setoid_replace (y + 1 * 7) with (y + 7) by ring.
    setoid_replace (y + 2 / 2) with (y + 1) by field.
    split; [reflexivity|]. split; apply L; reflexivity.
Qed.

(** On a bed at least seven units wide and high, the far end of each arm
    of each of the four markers lies on the bed. *)
Theorem arms_point_inward w h x y :
  7 <= w -> 7 <= h ->
  In (x, y) (reference_points_svg w h) ->
  0 <= x + x_direction x * size /\ x + x_direction x * size <= w /\
  0 <= y + y_direction y * size /\ y + y_direction y * size <= h.
Proof.
  intros Hw Hh Hin.
  assert (Pw : 0 < w) by (eapply Qlt_le_trans; [|exact Hw]; reflexivity).
  assert (Ph : 0 < h) by (eapply Qlt_le_trans; [|exact Hh]; reflexivity).
  assert (Z0 : x_direction 0 = 1) by reflexivity.
  assert (Z1 : y_direction 0 = 1) by reflexivity.
  assert (Xw : x_direction w = - (1))
    by (unfold x_direction; now rewrite (gt0_true _ Pw)).
  assert (Yh : y_direction h = - (1))
    by (unfold y_direction; now rewrite (gt0_true _ Ph)).
  assert (A : forall b : Q, 7 <= b -> 0 <= b + - (1) * size /\
                                       b + - (1) * size <= b).
  { intros b Hb. unfold size. split.
    - setoid_replace (b + - (1) * 7) with (b - 7) by ring.
      apply Qle_minus_iff in Hb. exact Hb.
    - apply Qle_minus_iff.
      setoid_replace (b + - (b + - (1) * 7)) with 7 by ring. discriminate. }
  assert (B : forall b : Q, 7 <= b -> 0 <= 0 + 1 * size /\
                                       0 + 1 * size <= b).
  { intros b Hb. unfold size. split; [discriminate|].
    setoid_replace (0 + 1 * 7) with 7 by ring. exact Hb. }
  unfold reference_points_svg in Hin. simpl in Hin.
  destruct Hin as [E|[E|[E|[E|[]]]]]; injection E as <- <-;
    rewrite ?Z0, ?Z1, ?Xw, ?Yh;
    destruct (A w Hw), (A h Hh), (B w Hw), (B h Hh); auto.
Qed.

(** *** The traces *)

(** A root without a height attribute makes the trace renderer raise
    AttributeError, whatever the curves, none included. *)
Theorem traces_need_height opts curves root :
  get root "height" = None ->
  traces opts curves root = Raise AttributeError.
Proof.
  intros H. unfold draw_debug_traces, canvas_height_of. now rewrite H.
Qed.

(** With a readable height the trace renderer returns the document with
    one more child, after those it had: the traces group, whose children
    are the arrow definitions first and then one element for each curve,
    in the order of the curves, and nothing else. *)
Theorem traces_one_path_per_curve opts curves root canvas_height :
  canvas_height_of float root = Ok canvas_height ->
  exists group,
    traces opts curves root = Ok (append group root) /\
    children (append group root) = children root ++ [group] /\
    is_group_with_id "debug_traces" group = true /\
    children group =
      arrow_defs ::
      map (fun curve =>
             to_svg_path (line_segment_approximation curve) "red" "0.5"
               (change_origin (machine_origin opts) canvas_height
                              (bed_width opts) (bed_height opts)) true)
          curves /\
    nth_error (children group) 0 = Some arrow_defs /\
    List.length (children group) = S (List.length curves) /\
    forall i curve,
      nth_error curves i = Some curve ->
      nth_error (children group) (S i) =
      Some (to_svg_path (line_segment_approximation curve) "red" "0.5"
              (change_origin (machine_origin opts) canvas_height
                             (bed_width opts) (bed_height opts)) true).
Proof.
  intros Hc. eexists. unfold draw_debug_traces. rewrite Hc. cbn [bind].
  split; [reflexivity|]. split; [reflexivity|].
  rewrite traces_group_shape. cbn [children].
  split; [reflexivity|]. split; [reflexivity|]. split; [reflexivity|]. split.
  - simpl. now rewrite length_map.
  - intros i curve Hi. cbn [nth_error].
    now rewrite nth_error_map, Hi.
Qed.

(** *** The renderers and clear_debug *)

(** What the two renderers add to a document without overlay groups,
    [clear_debug] takes out again: the document is back as it was. *)
Theorem clear_debug_undoes_renderers opts curves root traced drawn :
  overlay_count "debug_traces" root = 0%nat ->
  overlay_count "debug_references" root = 0%nat ->
  traces opts curves root = Ok traced ->
  references opts traced = Ok drawn ->
  clear_debug drawn = Ok root.
Proof.
  unfold overlay_count. intros Zt Zr Ht Hd.
  apply length_zero_iff_nil in Zt, Zr.
  unfold draw_debug_traces in Ht.
  destruct (canvas_height_of float root) as [c|]; [|discriminate].
  cbn [bind] in Ht. injection Ht as <-.
  unfold draw_unit_reference in Hd.
  destruct (reference_points_gcode _ _ _) as [labels|]; [|discriminate].
  cbn [bind] in Hd.
  destruct (reference_loop _ _ _ _ _ _) as [group|] eqn:Hl; [|discriminate].
  cbn [bind] in Hd. injection Hd as <-.
  apply reference_loop_keeps in Hl as [Hg Ha].
  assert (HR : is_group_with_id "debug_references" group = true)
    by (unfold is_group_with_id, get; now rewrite Hg, Ha).
  assert (HT : is_group_with_id "debug_traces"
                 (debug_traces_group line_segment_approximation arrow_defs
                    to_svg_path opts c curves) = true)
    by now rewrite traces_group_shape.
  rewrite clear_debug_removes_first. destruct root as [t a x ch].
  unfold with_children, append. simpl in *. rewrite <- app_assoc. simpl.
  rewrite (remove_first_app _ _ _ Zt). simpl. rewrite HT.
  rewrite (remove_first_app _ _ _ Zr). simpl. rewrite HR.
  now rewrite app_nil_r.
Qed.

(** *** The pass *)

(** What a pass returns, when it returns: the cleared document when
    debug drawing is off, and the cleared document followed by a traces
    group and a references group when it is on. *)
Lemma pass_result opts root generated :
  pass opts root = Ok generated ->
  exists cleared,
    clear_debug root = Ok cleared /\
    ((draw_debug opts = false /\ generated = cleared) \/
     (draw_debug opts = true /\
      exists traces_layer references_layer,
        generated = with_children cleared
                      (children cleared ++ [traces_layer; references_layer]) /\
        is_group_with_id "debug_traces" traces_layer = true /\
        is_group_with_id "debug_references" references_layer = true)).
Proof.
  intros Hp. unfold effect in Hp. rewrite clear_debug_removes_first in Hp.
  cbn [bind] in Hp. eexists. split; [apply clear_debug_removes_first|].
  destruct (draw_debug opts) eqn:Hd.
  - right. split; [reflexivity|].
    eapply pass_shape; [exact Hd|]. rewrite Hd. exact Hp.
  - left. split; [reflexivity|].
    destruct (parse_root _ _ _) as [curves|]; [|discriminate].
    cbn [bind] in Hp.
    destruct (compile_to_file _ _ _ _ _ _ _ _) as [u|]; [|discriminate].
    cbn [bind] in Hp. now injection Hp as <-.
Qed.

(** A pass never touches the drawing: the document it returns has the
    tag, the attributes and the text of the root it was given, and the
    same children apart from overlay groups, in the same order. *)
Theorem pass_keeps_drawing opts root generated :
  pass opts root = Ok generated ->
  tag generated = tag root /\ attrib generated = attrib root /\
  text generated = text root /\ drawing generated = drawing root.
Proof.
  intros Hp.
  destruct (pass_result _ _ _ Hp) as (cleared & Hc & Hg).
  destruct (clear_debug_keeps_drawing _ _ Hc) as (Ht & Ha & Hx & Hd).
  destruct Hg as [[_ ->]|(_ & T & R & -> & HT & HR)]; [auto|].
  unfold drawing in *. simpl. repeat split; auto.
  rewrite filter_app. simpl.
  rewrite (traces_is_overlay _ HT), (references_is_overlay _ HR). simpl.
  now rewrite app_nil_r.
Qed.

(** The overlay groups after a pass, on any document: with debug drawing
    on, one group of each kind more than what [clear_debug] left, that
    is as many as before and at least one; with debug drawing off, one
    less of each kind than before. *)
Theorem pass_overlay_count opts root generated :
  pass opts root = Ok generated ->
  let traces_before := overlay_count "debug_traces" root in
  let references_before := overlay_count "debug_references" root in
  (draw_debug opts = true ->
   overlay_count "debug_traces" generated = S (Nat.pred traces_before) /\
   overlay_count "debug_references" generated =
     S (Nat.pred references_before)) /\
  (draw_debug opts = false ->
   overlay_count "debug_traces" generated = Nat.pred traces_before /\
   overlay_count "debug_references" generated = Nat.pred references_before /\
   clear_debug root = Ok generated).
Proof.
  intros Hp. cbv zeta.
  destruct (pass_result _ _ _ Hp) as (cleared & Hc & Hg).
  destruct (clear_debug_counts _ _ Hc) as (Nt & Nr).
  split; intros Hd.
  - destruct Hg as [[Hd' _]|(_ & T & R & -> & HT & HR)]; [congruence|].
    rewrite <- Nt, <- Nr. unfold overlay_count. simpl.
    rewrite !filter_app, !length_app. simpl.
    rewrite HT, HR, (traces_not_references _ HT),
      (references_not_traces _ HR). simpl. lia.
  - destruct Hg as [[_ ->]|(Hd' & _)]; [auto | congruence].
Qed.

(** With debug drawing on, a document whose root has no height attribute
    makes the pass raise. *)
Theorem pass_needs_height opts root :
  draw_debug opts = true ->
  get root "height" = None ->
  raises (pass opts root).
Proof.
  intros Hd Hh. unfold effect. rewrite clear_debug_removes_first.
  cbn [bind].
  destruct (parse_root _ _ _) as [curves|e]; [|now exists e]. cbn [bind].
  destruct (compile_to_file _ _ _ _ _ _ _ _) as [u|e]; [|now exists e].
  cbn [bind]. rewrite Hd. unfold draw_debug_traces, canvas_height_of.
  destruct root as [t a x ch]. unfold with_children, get in *.
  cbn [attrib] in *. rewrite Hh. now exists AttributeError.
Qed.


End MoreProperties.

(** ** The rest of the extension on the samples *)

Lemma set_laser_power_bounds_witness :
  set_laser_power sample_str_num sample_linear_map "M3" 255 (1 # 2) =
  Ok "M3 S255/2;"%string.
Proof.
  apply (set_laser_power_bounds sample_str_num sample_linear_map "M3" 255
           (1 # 2)); discriminate.
Defined.

Lemma replace_comma_witness : replace "," "." "0.5" = "0.5"%string.
Proof. apply (replace_comma "0.5"). reflexivity. Defined.

Lemma output_path_needs_one_dot_witness :
  exists message,
    output_path sample_join (listed sample_files) "/out.d" "drawing.gcode"
                true 5 = Raise (ValueError message).
Proof.
  apply (output_path_needs_one_dot sample_join (listed sample_files)
           "/out.d" "drawing.gcode" 5).
  discriminate.
Defined.

Lemma output_path_is_free_witness :
  listed sample_files "/out/drawing2.gcode" = false /\
  ("/out/drawing2.gcode"%string = sample_join "/out" "drawing.gcode" \/
   exists stem extension n,
     sample_join "/out" "drawing.gcode" = (stem ++ "." ++ extension)%string /\
     (1 <= n)%nat /\
     "/out/drawing2.gcode"%string = numbered stem extension n /\
     listed sample_files (sample_join "/out" "drawing.gcode") = true /\
     forall j, (1 <= j < n)%nat ->
               listed sample_files (numbered stem extension j) = true).
Proof.
  apply (output_path_is_free sample_join (listed sample_files)
           "/out" "drawing.gcode" 5 "/out/drawing2.gcode").
  reflexivity.
Defined.

Lemma output_path_found_witness :
  exists path,
    output_path sample_join (listed sample_files) "/out" "drawing.gcode"
                true 4 = Ok (Some path) /\
    listed sample_files path = false.
Proof.
  apply (output_path_found sample_join sample_files "/out" "drawing.gcode" 4).
  - reflexivity.
  - simpl. lia.
Defined.

Lemma output_path_without_suffix_witness :
  output_path sample_join (listed sample_files) "/out" "drawing.gcode"
              false 5 = Ok (Some (sample_join "/out" "drawing.gcode")) /\
  (count_char "." (sample_join "/out" "drawing.gcode") = 1%nat ->
   (0 < 5)%nat ->
   output_path sample_join (listed sample_files) "/out" "drawing.gcode"
               true 5 <> Ok (Some (sample_join "/out" "drawing.gcode"))).
Proof.
  apply (output_path_without_suffix sample_join (listed sample_files)
           "/out" "drawing.gcode" 5).
  reflexivity.
Defined.

Lemma read_arguments_reads_witness :
  exists read,
    [mkArgument "bed_width" py_float; mkArgument "machine_origin" py_str;
     mkArgument "draw_debug" Boolean; mkArgument "tabs" py_str] =
    read ++ [mkArgument "tabs" py_str] /\
    Forall2 argument_of
      (filter makes_argument (iter sample_inx (qname inx_namespace "param")))
      read.
Proof.
  apply (read_arguments_reads sample_inx). reflexivity.
Defined.

Lemma read_arguments_without_page_witness :
  read_arguments sample_inx_flat = Stop StopIteration.
Proof.
  destruct (read_arguments_without_page sample_inx_flat eq_refl) as [_ H].
  apply (H [mkArgument "bed_width" py_float]). reflexivity.
Defined.

Lemma read_arguments_ill_formed_witness :
  exists key, read_arguments sample_inx_optiongroup = Stop (InxKeyError key).
Proof.
  apply (read_arguments_ill_formed sample_inx_optiongroup
           (sample_param "machine_origin" "optiongroup")).
  - simpl. auto.
  - right. right. exists "optiongroup"%string.
    repeat split. simpl. intros [H|[H|[H|[H|[H|[H|[]]]]]]]; discriminate H.
Defined.

Lemma sample_inx_well_formed arg :
  In arg (iter sample_inx (qname inx_namespace "param")) -> ~ ill_formed arg.
Proof.
  simpl. intros [<-|[<-|[<-|[<-|[<-|[]]]]]];
    intros [H|[H|(ty & H & Hs & Hk)]]; try discriminate H;
    injection H as <-; try discriminate Hs; apply Hk; simpl; auto 8.
Qed.

Lemma read_arguments_returns_witness :
  exists arguments, read_arguments sample_inx = Read arguments.
Proof.
  apply (read_arguments_returns sample_inx).
  - discriminate.
  - exact sample_inx_well_formed.
Defined.

Lemma draw_unit_reference_recognized_witness :
  (exists group,
     draw_unit_reference sample_str_num (sample_options "center" true)
                         sample_document = Ok (append group sample_document) /\
     is_group_with_id "debug_references" group = true /\
     List.length (children group) = 4%nat) /\
  draw_unit_reference sample_str_num (sample_options "top-right" true)
                      sample_document = Raise (KeyError "top-right").
Proof.
  split.
  - destruct (draw_unit_reference_recognized sample_str_num
                (sample_options "center" true) sample_document) as [H _].
    apply H. right. right. reflexivity.
  - destruct (draw_unit_reference_recognized sample_str_num
                (sample_options "top-right" true) sample_document)
      as (_ & H & _).
    apply H. exact not_recognized_top_right.
Defined.

Lemma arms_point_inward_witness :
  0 <= 200 + x_direction 200 * size /\ 200 + x_direction 200 * size <= 200 /\
  0 <= 100 + y_direction 100 * size /\ 100 + y_direction 100 * size <= 100.
Proof.
  apply (arms_point_inward 200 100 200 100); try discriminate.
  simpl. auto.
Defined.

Lemma traces_need_height_witness :
  sample_draw_debug_traces (sample_options "center" true) []
                           sample_document_no_height = Raise AttributeError.
Proof.
  apply (traces_need_height (list Point) (list Point) sample_float
           (fun c => c) sample_arrow_defs sample_to_svg_path).
  reflexivity.
Defined.

Lemma traces_one_path_per_curve_witness :
  exists group,
    sample_draw_debug_traces (sample_options "center" true) sample_curves
                             sample_document =
      Ok (append group sample_document) /\
    children (append group sample_document) =
      children sample_document ++ [group] /\
    is_group_with_id "debug_traces" group = true /\
    children group =
      sample_arrow_defs ::
      map (fun curve =>
             sample_to_svg_path curve "red" "0.5"
               (change_origin "center" 100 200 100) true)
          sample_curves /\
    nth_error (children group) 0 = Some sample_arrow_defs /\
    List.length (children group) = S (List.length sample_curves) /\
    forall i curve,
      nth_error sample_curves i = Some curve ->
      nth_error (children group) (S i) =
      Some (sample_to_svg_path curve "red" "0.5"
              (change_origin "center" 100 200 100) true).
Proof.
  apply (traces_one_path_per_curve (list Point) (list Point) sample_float
           (fun c => c) sample_arrow_defs sample_to_svg_path
           (sample_options "center" true) sample_curves sample_document 100).
  reflexivity.
Defined.

Lemma clear_debug_undoes_renderers_witness :
  clear_debug sample_generated = Ok sample_document.
Proof.
  apply (clear_debug_undoes_renderers (list Point) (list Point)
           sample_str_num sample_float (fun c => c) sample_arrow_defs
           sample_to_svg_path (sample_options "center" true) sample_curves
           sample_document sample_traced sample_generated);
    reflexivity.
Defined.

Lemma pass_keeps_drawing_witness :
  tag sample_generated = tag sample_document /\
  attrib sample_generated = attrib sample_document /\
  text sample_generated = text sample_document /\
  drawing sample_generated = drawing sample_document.
Proof.
  apply (pass_keeps_drawing (list Point) (list Point) sample_str_num
           sample_float sample_parse_root sample_compile_to_file
           (fun c => c) sample_arrow_defs sample_to_svg_path
           (sample_options "center" true) sample_document sample_generated).
  reflexivity.
Defined.

Lemma pass_overlay_count_witness :
  overlay_count "debug_traces" sample_generated = 1%nat /\
  overlay_count "debug_references" sample_generated = 1%nat.
Proof.
  destruct (pass_overlay_count (list Point) (list Point) sample_str_num
              sample_float sample_parse_root sample_compile_to_file
              (fun c => c) sample_arrow_defs sample_to_svg_path
              (sample_options "center" true) sample_document
              sample_generated eq_refl) as [H _].
  exact (H eq_refl).
Defined.

Lemma pass_needs_height_witness :
  raises (sample_effect (sample_options "center" true)
                        sample_document_no_height).
Proof.
  apply (pass_needs_height (list Point) (list Point) sample_str_num
           sample_float sample_parse_root sample_compile_to_file
           (fun c => c) sample_arrow_defs sample_to_svg_path);
    reflexivity.
Defined.


Lemma replace_append old new a b :
  replace old new (a ++ b) = (replace old new a ++ replace old new b)%string.
Proof. induction a as [|c a IH]; simpl; [reflexivity | now rewrite IH]. Qed.

(** A tolerance typed with a decimal comma is read like the same
    tolerance typed with a decimal point. *)
Theorem tolerance_comma_or_point float a b :
  approximation_tolerance float (a ++ "," ++ b) =
  approximation_tolerance float (a ++ "." ++ b).
Proof.
  unfold approximation_tolerance. now rewrite !replace_append.
Qed.

Lemma crosshair_arms_witness :
  exists x1 x2 y1 y2,
    get (horizontal_line sample_str_num 0 100) "x1" = Some (sample_str_num x1) /\
    get (horizontal_line sample_str_num 0 100) "x2" = Some (sample_str_num x2) /\
    y1 == 100 + 1 /\ y2 == 100 - 7 /\ y2 < 100 /\ 100 < y1 /\
    x1 == 0 - 1 /\ x2 == 0 + 7.
Proof.
  destruct (crosshair_arms sample_str_num 0 100)
    as (x1 & x2 & y1 & y2 & A & B & _ & _ & _ & _ & _ & _ & _ & Hx & Hy1 & Hy & _).
  exists x1, x2, y1, y2.
  destruct (Hy eq_refl) as (C & D & E).
  destruct Hx as [F G]; [discriminate|]. auto 10.
Defined.

(** C9, as it is stated, fails on a page whose root has no height
    attribute: the height is read before the curves are looked at, so
    with no curve at all the renderer raises AttributeError and appends
    no group. *)
Lemma no_curve_no_path_counterexample :
  get sample_document_no_height "height" = None /\
  sample_draw_debug_traces (sample_options "bottom-left" true) []
                           sample_document_no_height = Raise AttributeError /\
  ~ exists root',
      sample_draw_debug_traces (sample_options "bottom-left" true) []
                               sample_document_no_height = Ok root'.
Proof.
  split; [reflexivity|]. split; [reflexivity|].
  intros [root' H]. discriminate H.
Qed.
